(** * Shallow embedding of the load generator, metrics aggregation and test
    orchestration of [universal-framework-tester.ts] and of the
    [BatchFrameworkTester] (batch-framework-tester).

    Latencies are JS numbers produced by [performance.now()] differences; they
    are modelled as canonical rationals [Qc] (one representation per value, as
    for a JS number), so the arithmetic below is exact: floating-point rounding
    is outside this model. *)

From Stdlib Require Import String List Bool Arith Lia ZArith QArith Qcanon Qround.
From Stdlib Require Import Sorting.Sorted Sorting.Permutation.
Import ListNotations.

Open Scope Qc_scope.

(** ** JS values used by the statistics *)

(** The value of a JS numeric expression: a finite number, NaN, an infinity, or
    [undefined] (an out-of-range array read). *)
Inductive jsnum :=
| JNum (q : Qc)
| JNaN
| JInf
| JUndefined.

(** [arr[i]] on a JS array: [undefined] out of range. *)
Definition js_index (arr : list Qc) (i : nat) : jsnum :=
  match nth_error arr i with
  | Some x => JNum x
  | None => JUndefined
  end.

(** [a / b] on JS numbers ([0/0] is NaN, [a/0] an infinity). *)
Definition js_div (a b : Qc) : jsnum :=
  if Qc_eq_bool b 0 then (if Qc_eq_bool a 0 then JNaN else JInf) else JNum (a / b).

Definition Qc_of_nat (n : nat) : Qc := Q2Qc (inject_Z (Z.of_nat n)).

Definition Qcleb (x y : Qc) : bool := Qle_bool (this x) (this y).
Definition Qcltb (x y : Qc) : bool := negb (Qcleb y x).

(** ** Data model *)

Record LatencyRecord := mkLatencyRecord {
  latency : Qc;
  success : bool
}.

(** ** Metrics aggregation ([runPerformanceTest]) *)

Module Aggregate.

(** The mutable locals of [runPerformanceTest] shared by the 20 workers. *)
Record counters := mkCounters {
  totalRequests : nat;
  successRequests : nat;
  errorRequests : nat;
  latencies : list Qc
}.

Definition init_counters : counters := mkCounters 0 0 0 [].

(** One iteration of [batchResults.forEach] in [processBatch]:
    [latencies.push] appends at the end. *)
Definition record_result (c : counters) (r : LatencyRecord) : counters :=
  if success r then
    mkCounters (S (totalRequests c)) (S (successRequests c)) (errorRequests c)
               (latencies c ++ [latency r])
  else
    mkCounters (S (totalRequests c)) (successRequests c) (S (errorRequests c))
               (latencies c).

Definition processBatch (c : counters) (batchResults : list LatencyRecord) : counters :=
  fold_left record_result batchResults c.

(** The workers interleave freely, but every batch they await is folded in by
    [processBatch] as a whole (no await inside the fold), so a run is the
    sequence of settled batches in the order they were folded in. *)
Definition fold_batches (batches : list (list LatencyRecord)) : counters :=
  fold_left processBatch batches init_counters.

(** [latencies.sort((a, b) => a - b)]: ascending order. On [Qc] equal values
    are identical, so any correct sort yields this insertion sort's output. *)
Fixpoint insert (x : Qc) (l : list Qc) : list Qc :=
  match l with
  | [] => [x]
  | y :: ys => if Qcleb x y then x :: y :: ys else y :: insert x ys
  end.

Definition sort_asc (l : list Qc) : list Qc := fold_right insert [] l.

(** [latencies.reduce((sum, lat) => sum + lat, 0)] *)
Definition sum (l : list Qc) : Qc := fold_left (fun s lat => s + lat) l 0.

(** [Math.floor(latencies.length * 0.95)] *)
Definition p95_index (len : nat) : nat :=
  Z.to_nat (Qfloor (inject_Z (Z.of_nat len) * (95 # 100))).

(** [totalRequests > 0 ? (errorRequests / totalRequests) * 100 : 0] *)
Definition error_rate (total errors : nat) : Qc :=
  if (0 <? total)%nat then Qc_of_nat errors / Qc_of_nat total * Q2Qc 100 else 0.

(** The value returned by [runPerformanceTest]; note the source returns
    [successRequests] under the name [totalRequests]. *)
Record perf_result := mkPerfResult {
  r_totalRequests : nat;
  averageLatency : jsnum;
  minLatency : jsnum;
  maxLatency : jsnum;
  p95Latency : jsnum;
  errorRate : Qc
}.

Inductive perf_outcome :=
| NoSuccessfulRequests          (** [throw new Error("... 没有成功的请求")] *)
| Returned (r : perf_result).

(** Lines after [await Promise.all(testPromises)]. *)
Definition summarize (c : counters) : perf_outcome :=
  if (length (latencies c) =? 0)%nat then NoSuccessfulRequests
  else
    let s := sort_asc (latencies c) in
    Returned (mkPerfResult
      (successRequests c)
      (js_div (sum s) (Qc_of_nat (length s)))
      (js_index s 0)
      (js_index s (length s - 1))
      (js_index s (p95_index (length s)))
      (error_rate (totalRequests c) (errorRequests c))).

Definition runPerformanceTest (batches : list (list LatencyRecord)) : perf_outcome :=
  summarize (fold_batches batches).

(** The error rate [runPerformanceTest] computes for a run. *)
Definition errorRate_of (batches : list (list LatencyRecord)) : Qc :=
  let c := fold_batches batches in error_rate (totalRequests c) (errorRequests c).


End Aggregate.

(** ** Promises and errors *)

(** The errors thrown along the orchestration path. *)
Inductive test_error :=
| EStartTimeout            (** [startFrameworkServer]: "启动超时" *)
| EStartFailed             (** [startFrameworkServer]: "启动失败" or "进程异常退出" *)
| EServiceUnavailable      (** manual mode health check failed *)
| ENoSuccessfulRequests    (** [runPerformanceTest]: "没有成功的请求" *)
| ETooFewRequests          (** "测试请求数过少" *)
| EErrorRateTooHigh.       (** "错误率过高" *)

(** The settled state of a JS promise. *)
Inductive promise (A : Type) :=
| Pending
| Fulfilled (a : A)
| Rejected (e : test_error).
Arguments Pending {A}.
Arguments Fulfilled {A} a.
Arguments Rejected {A} e.

(** ** Request driver: [sendRequest] and [sendHealthCheck] *)

Module Driver.

Inductive http_method := GET | POST.

Record TestEndpoint := mkEndpoint {
  path : string;
  method : http_method;
  body : option string;          (** [JSON.stringify(endpoint.body)] *)
  description : string
}.

(** What the socket of one [http.request] delivers, each at a time. *)
Inductive net_event :=
| EvResponse (statusCode : Z)   (** the response callback runs *)
| EvData                        (** [res.on("data")] *)
| EvEnd                         (** [res.on("end")] *)
| EvError.                      (** [req.on("error")]: refused, reset, ... *)

Inductive request_kind := HealthCheckRequest | LoadTestRequest.

(** The [timeout] option: 2000 in [sendHealthCheck], 5000 in [sendRequest]. *)
Definition request_timeout (k : request_kind) : Qc :=
  match k with
  | HealthCheckRequest => Q2Qc 2000
  | LoadTestRequest => Q2Qc 5000
  end.

(** The [success] test of the ["end"] handler. *)
Definition accepts (k : request_kind) (statusCode : Z) : bool :=
  match k with
  | HealthCheckRequest => (200 <=? statusCode)%Z && (statusCode <? 500)%Z
  | LoadTestRequest => (200 <=? statusCode)%Z && (statusCode <? 300)%Z
  end.

(** The promise executor. [last] is the time of the last socket activity: the
    ["timeout"] event fires once the socket has been idle for the timeout, and
    its handler [req.destroy()]s the request and resolves. A promise settles
    once: whatever the first handler to call [resolve] passes is the value,
    later calls (the ["error"] that [req.destroy()] raises) are ignored. *)
Fixpoint settle (k : request_kind) (startTime last : Qc) (status : option Z)
    (evs : list (Qc * net_event)) : promise LatencyRecord :=
  match evs with
  | [] => Fulfilled (mkLatencyRecord (last + request_timeout k - startTime) false)
  | (t, ev) :: rest =>
      if Qcltb (last + request_timeout k) t then
        Fulfilled (mkLatencyRecord (last + request_timeout k - startTime) false)
      else
        match ev with
        | EvResponse st => settle k startTime t (Some st) rest
        | EvData => settle k startTime t status rest
        | EvEnd =>
            match status with
            | Some st => Fulfilled (mkLatencyRecord (t - startTime) (accepts k st))
            | None => settle k startTime t status rest
            end
        | EvError => Fulfilled (mkLatencyRecord (t - startTime) false)
        end
  end.

(** [sendRequest(endpoint, port)] of [UniversalFrameworkTester]; the endpoint
    and port select the server whose answer [evs] is. *)
Definition sendRequest (endpoint : TestEndpoint) (port : Z) (startTime : Qc)
    (evs : list (Qc * net_event)) : promise LatencyRecord :=
  settle LoadTestRequest startTime startTime None evs.

Definition sendHealthCheck (endpoint : TestEndpoint) (port : Z) (startTime : Qc)
    (evs : list (Qc * net_event)) : promise LatencyRecord :=
  settle HealthCheckRequest startTime startTime None evs.

(** The driver used for each kind of request. *)
Definition send (k : request_kind) : TestEndpoint -> Z -> Qc -> list (Qc * net_event) -> promise LatencyRecord :=
  match k with
  | HealthCheckRequest => sendHealthCheck
  | LoadTestRequest => sendRequest
  end.

(** [BatchFrameworkTester.sendRequest]: the same code as [sendRequest]. *)
Definition batch_sendRequest (endpoint : TestEndpoint) (port : Z) (startTime : Qc)
    (evs : list (Qc * net_event)) : promise LatencyRecord :=
  settle LoadTestRequest startTime startTime None evs.

(** [BatchFrameworkTester.healthCheck(port)]: [sendRequest] on the first
    endpoint, [false] if it throws. *)
Definition batch_healthCheck (endpoints : list TestEndpoint) (port : Z) (startTime : Qc)
    (evs : list (Qc * net_event)) : bool :=
  match endpoints with
  | [] => false
  | ep :: _ =>
      match batch_sendRequest ep port startTime evs with
      | Fulfilled r => success r
      | _ => false
      end
  end.

End Driver.

(** ** Readiness polling in [startFrameworkServer] *)

Module Startup.

Definition maxAttempts : nat := 250.

(** [checkServerReady]: the [checkAttempts]-th check starts at [now] (ms since
    [coldStartBegin]); [hc i] is the record [sendHealthCheck] resolves with at
    the [i]-th check. A success resolves with the cold-start time; otherwise
    the next check is scheduled [setTimeout(checkServerReady, 100)] after the
    check settles. Once [checkAttempts >= maxAttempts] the process is sent
    SIGTERM and the promise is rejected. [fuel] only bounds the recursion. *)
Fixpoint checkServerReady (fuel checkAttempts : nat) (now : Qc)
    (hc : nat -> LatencyRecord) : promise Qc :=
  match fuel with
  | O => Rejected EStartTimeout
  | S fuel' =>
      if (maxAttempts <=? checkAttempts)%nat then Rejected EStartTimeout
      else
        let r := hc checkAttempts in
        let settled := now + latency r in
        if success r then Fulfilled settled
        else checkServerReady fuel' (S checkAttempts) (settled + Q2Qc 100) hc
  end.

(** The polling chain alone: the first check runs after
    [setTimeout(checkServerReady, 1000)]. *)
Definition poll (hc : nat -> LatencyRecord) : promise Qc :=
  checkServerReady (S maxAttempts) 0 (Q2Qc 1000) hc.

(** Start time of the [k]-th check when all earlier ones failed. *)
Fixpoint check_start (hc : nat -> LatencyRecord) (k : nat) : Qc :=
  match k with
  | O => Q2Qc 1000
  | S k' => check_start hc k' + latency (hc k') + Q2Qc 100
  end.

(** When the polling chain settles: at the successful check, or at the call
    with [checkAttempts = maxAttempts] that sends SIGTERM and rejects. *)
Definition poll_end (hc : nat -> LatencyRecord) : Qc :=
  match poll hc with
  | Fulfilled t => t
  | _ => check_start hc maxAttempts
  end.

(** How the spawned process ends on its own: an ["error"] event (e.g. the
    command cannot be spawned), an ["exit"] with a code, or an ["exit"] by a
    signal ([code === null]). *)
Inductive exit_reason :=
| SpawnError
| ExitCode (code : Z)
| ExitSignal.

(** The ["error"] handler rejects; the ["exit"] handler rejects when
    [code !== null && code !== 0]. *)
Definition rejects_start (x : exit_reason) : bool :=
  match x with
  | SpawnError => true
  | ExitCode code => negb (Z.eqb code 0)
  | ExitSignal => false
  end.

(** The promise of [startFrameworkServer]. [ex] is the time (ms since
    [coldStartBegin]) and manner in which the process ends on its own, if it
    does. The first of [resolve] and [reject] to run settles the promise: a
    rejecting ["error"]/["exit"] strictly before the polling chain settles
    wins; at or after that time it is ignored. *)
Definition startFrameworkServer (hc : nat -> LatencyRecord)
    (ex : option (Qc * exit_reason)) : promise Qc :=
  match ex with
  | Some (t, x) =>
      if rejects_start x && Qcltb t (poll_end hc) then Rejected EStartFailed else poll hc
  | None => poll hc
  end.

(** Whether the process ends on its own before the polling chain settles. *)
Definition exits_during_poll (hc : nat -> LatencyRecord)
    (ex : option (Qc * exit_reason)) : bool :=
  match ex with
  | Some (t, _) => Qcltb t (poll_end hc)
  | None => false
  end.

End Startup.

(** ** Processes and the test orchestrator ([testFramework],
    [testAllFrameworks], [cleanupFramework], [stopAllServers]) *)

Module Orchestrator.
Import Aggregate.

Inductive signal := SIGTERM | SIGKILL.

Inductive event :=
| Spawn (name : string) (pid : nat)
| Kill (pid : nat) (sig : signal)    (** a signal actually delivered *)
| Sleep (ms : Z)
| HealthCheck (port : Z)
| Warmup (port : Z)
| LoadTest (port : Z).

(** The fields of a [ChildProcess] the code reads. *)
Record ChildProcess := mkChild { pid : nat; killed : bool }.

(** A live OS process: whether it exits on SIGTERM, and whether its command
    line matches the [ps aux | grep] patterns of [forceCleanupProcesses]. *)
Record os_proc := mkOsProc { os_pid : nat; exits_on_term : bool; matches_cleanup : bool }.

Record state := mkState {
  serverProcesses : list (string * ChildProcess);   (** the [Map] *)
  os : list os_proc;
  log : list event
}.

(** A state and error monad: [await]ing code that may throw. *)
Definition M (A : Type) : Type := state -> (test_error + A) * state.

Definition ret {A} (a : A) : M A := fun st => (inr a, st).
Definition bind {A B} (m : M A) (k : A -> M B) : M B :=
  fun st => match m st with
            | (inl e, st') => (inl e, st')
            | (inr a, st') => k a st'
            end.
Definition throw {A} (e : test_error) : M A := fun st => (inl e, st).
(** [try { ... } catch]: the outcome as a value. *)
Definition attempt {A} (m : M A) : M (test_error + A) :=
  fun st => let (r, st') := m st in (inr r, st').

Notation "x <- m ;; k" := (bind m (fun x => k)) (at level 61, m at next level, right associativity).
Notation "m ;; k" := (bind m (fun _ => k)) (at level 61, right associativity).

Definition modify (f : state -> state) : M unit := fun st => (inr tt, f st).
Definition gets {A} (f : state -> A) : M A := fun st => (inr (f st), st).

Definition emit (e : event) : M unit :=
  modify (fun st => mkState (serverProcesses st) (os st) (log st ++ [e])).

Definition sleep (ms : Z) : M unit := emit (Sleep ms).

(** [Map.get], [Map.set] (an existing key keeps its place), [Map.delete]. *)
Definition map_get (name : string) (m : list (string * ChildProcess)) : option ChildProcess :=
  match find (fun kv => String.eqb (fst kv) name) m with
  | Some (_, p) => Some p
  | None => None
  end.

Definition map_set (name : string) (p : ChildProcess) (m : list (string * ChildProcess)) :=
  if existsb (fun kv => String.eqb (fst kv) name) m
  then map (fun kv => if String.eqb (fst kv) name then (name, p) else kv) m
  else m ++ [(name, p)].

Definition map_delete (name : string) (m : list (string * ChildProcess)) :=
  filter (fun kv => negb (String.eqb (fst kv) name)) m.

Definition set_proc (name : string) (p : ChildProcess) : M unit :=
  modify (fun st => mkState (map_set name p (serverProcesses st)) (os st) (log st)).

Definition delete_proc (name : string) : M unit :=
  modify (fun st => mkState (map_delete name (serverProcesses st)) (os st) (log st)).

Definition get_proc (name : string) : M (option ChildProcess) :=
  gets (fun st => map_get name (serverProcesses st)).

Definition is_alive (pid : nat) (o : list os_proc) : bool :=
  existsb (fun q => Nat.eqb (os_pid q) pid) o.

(** Delivering a signal to a live process; it leaves the table on SIGKILL,
    or on SIGTERM when it honours it. Returns whether a signal was sent. *)
Definition signal_pid (pid : nat) (sig : signal) : M bool :=
  fun st =>
    if is_alive pid (os st) then
      let gone q := Nat.eqb (os_pid q) pid &&
                    match sig with SIGKILL => true | SIGTERM => exits_on_term q end in
      (inr true, mkState (serverProcesses st) (filter (fun q => negb (gone q)) (os st))
                         (log st ++ [Kill pid sig]))
    else (inr false, st).

(** [process.kill(sig)] on the handle stored under [name]: once the process
    has exited the handle is gone, nothing is sent and [killed] stays false;
    otherwise [killed] becomes true on the shared handle. *)
Definition kill (name : string) (p : ChildProcess) (sig : signal) : M unit :=
  sent <- signal_pid (pid p) sig ;;
  if sent then
    (cur <- get_proc name ;;
     match cur with
     | Some q => if Nat.eqb (pid q) (pid p) then set_proc name (mkChild (pid p) true) else ret tt
     | None => ret tt
     end)
  else ret tt.

Record FrameworkConfig := mkConfig {
  name : string;
  displayName : string;
  directory : string;
  startCommand : list string;
  port : Z
}.

(** The record [testFramework] returns ([memoryUsage] left out). *)
Record PerformanceMetrics := mkMetrics {
  framework : string;
  coldStartTime : Qc;
  m_totalRequests : nat;
  requestsPerSecond : jsnum;
  m_averageLatency : jsnum;
  m_minLatency : jsnum;
  m_maxLatency : jsnum;
  m_p95Latency : jsnum;
  testDuration : Qc;
  m_errorRate : Qc
}.

(** What the outside world does during one attempt on one framework. *)
Record attempt_env := mkEnv {
  env_pid : nat;                                (** pid given to the spawned server *)
  env_exits_on_term : bool;
  env_matches_cleanup : bool;
  env_hc : nat -> LatencyRecord;                (** readiness checks, auto mode *)
  env_manual_hc : LatencyRecord;                (** the health check of manual mode *)
  env_batches : list (list LatencyRecord);      (** the load run *)
  env_duration : Qc;                            (** [performance.now() - testStart] *)
  env_exit : option (Qc * Startup.exit_reason)  (** the server ending on its own *)
}.

(** [spawn(...)] and [serverProcesses.set]: the process starts alive;
    whether and when it ends on its own ([env_exit]) is applied by
    [startFrameworkServer]. *)
Definition spawn (cfg : FrameworkConfig) (e : attempt_env) : M ChildProcess :=
  let p := mkChild (env_pid e) false in
  modify (fun st => mkState (serverProcesses st)
                            (os st ++ [mkOsProc (env_pid e) (env_exits_on_term e) (env_matches_cleanup e)])
                            (log st ++ [Spawn (name cfg) (env_pid e)])) ;;
  set_proc (name cfg) p ;;
  ret p.

(** The process [pid] ends on its own and leaves the table. The [exit]
    handler does not touch [serverProcesses], so the handle stays there. *)
Definition exit_proc (pid : nat) : M unit :=
  modify (fun st => mkState (serverProcesses st)
                            (filter (fun q => negb (Nat.eqb (os_pid q) pid)) (os st)) (log st)).

(** [startFrameworkServer]. A server that ends on its own before the polling
    chain settles is gone when it settles, so the SIGTERM of the timeout path
    reaches nobody; a server that ends on its own later is gone by the end of
    the attempt (it dies during the warm-up or the load run). A rejection by
    the ["error"]/["exit"] handlers ([EStartFailed]) sends no signal; the
    polling chain goes on in the background, and its SIGTERM, if any, finds
    the process gone. *)
Definition startFrameworkServer (cfg : FrameworkConfig) (e : attempt_env) : M Qc :=
  p <- spawn cfg e ;;
  let early := Startup.exits_during_poll (env_hc e) (env_exit e) in
  let late := match env_exit e with Some _ => negb early | None => false end in
  (if early then exit_proc (env_pid e) else ret tt) ;;
  match Startup.startFrameworkServer (env_hc e) (env_exit e) with
  | Fulfilled t => (if late then exit_proc (env_pid e) else ret tt) ;; ret t
  | Rejected EStartTimeout =>
      kill (name cfg) p SIGTERM ;;
      (if late then exit_proc (env_pid e) else ret tt) ;; throw EStartTimeout
  | Rejected err => throw err
  | Pending => throw EStartTimeout
  end.

(** The record built after the validity gates. *)
Definition build_metrics (cfg : FrameworkConfig) (coldStart : Qc) (r : perf_result)
    (duration : Qc) : PerformanceMetrics :=
  mkMetrics (displayName cfg) coldStart (r_totalRequests r)
    (js_div (Qc_of_nat (r_totalRequests r)) (duration / Q2Qc 1000))
    (averageLatency r) (minLatency r) (maxLatency r) (p95Latency r)
    duration (errorRate r).

(** Warm-up, [runPerformanceTest] and the two validity gates. *)
Definition run_and_gate (cfg : FrameworkConfig) (coldStart : Qc) (e : attempt_env)
    : M PerformanceMetrics :=
  emit (Warmup (port cfg)) ;;
  emit (LoadTest (port cfg)) ;;
  match runPerformanceTest (env_batches e) with
  | NoSuccessfulRequests => throw ENoSuccessfulRequests
  | Returned r =>
      if (r_totalRequests r <? 10)%nat then throw ETooFewRequests
      else if Qcltb (Q2Qc 50) (errorRate r) then throw EErrorRateTooHigh
      else ret (build_metrics cfg coldStart r (env_duration e))
  end.

(** The body of the [try] in one iteration of the retry loop. *)
Definition attempt_body (cfg : FrameworkConfig) (manualStart : bool) (e : attempt_env)
    : M PerformanceMetrics :=
  coldStart <-
    (if negb manualStart then
       existing <- get_proc (name cfg) ;;
       (match existing with
        | Some p => if negb (killed p)
                    then kill (name cfg) p SIGKILL ;; delete_proc (name cfg) ;; sleep 1000
                    else ret tt
        | None => ret tt
        end) ;;
       cs <- startFrameworkServer cfg e ;;
       sleep 2000 ;;
       ret cs
     else
       sleep 2000 ;;
       emit (HealthCheck (port cfg)) ;;
       if success (env_manual_hc e) then ret 0 else throw EServiceUnavailable) ;;
  run_and_gate cfg coldStart e.

(** The [catch] block: auto mode kills and forgets the process. *)
Definition on_failure (cfg : FrameworkConfig) (manualStart : bool) : M unit :=
  if negb manualStart then
    cur <- get_proc (name cfg) ;;
    (match cur with
     | Some p => if negb (killed p) then kill (name cfg) p SIGKILL else ret tt
     | None => ret tt
     end) ;;
    delete_proc (name cfg)
  else ret tt.

(** [for (let attempt = 1; attempt <= maxRetries; attempt++)]. *)
Fixpoint retry_loop (fuel attempt_no : nat) (maxRetries : Z) (cfg : FrameworkConfig)
    (manualStart : bool) (env : nat -> attempt_env) : M (option PerformanceMetrics) :=
  match fuel with
  | O => ret None
  | S fuel' =>
      if (Z.of_nat attempt_no <=? maxRetries)%Z then
        res <- attempt (attempt_body cfg manualStart (env attempt_no)) ;;
        match res with
        | inr m => ret (Some m)
        | inl _ =>
            on_failure cfg manualStart ;;
            (if (Z.of_nat attempt_no <? maxRetries)%Z
             then sleep (Z.of_nat attempt_no * 2000) else ret tt) ;;
            retry_loop fuel' (S attempt_no) maxRetries cfg manualStart env
        end
      else ret None
  end.

(** A JS argument: a number, a boolean, or missing (the default applies). *)
Inductive jsarg := ANum (z : Z) | ABool (b : bool) | AUndefined.

(** The value of a numeric parameter in [attempt <= maxRetries]. *)
Definition arg_number (a : jsarg) (default : Z) : Z :=
  match a with
  | ANum z => z
  | ABool b => if b then 1 else 0
  | AUndefined => default
  end.

(** The truth value of a boolean parameter in [!manualStart]. *)
Definition arg_truthy (a : jsarg) (default : bool) : bool :=
  match a with
  | ANum z => negb (Z.eqb z 0)
  | ABool b => b
  | AUndefined => default
  end.

(** [testFramework(frameworkName, testDuration = 10, maxRetries = 2,
    manualStart = false)]; [available] is [checkFrameworkAvailable]. *)
Definition testFramework (configs : list FrameworkConfig) (available : FrameworkConfig -> bool)
    (env : string -> nat -> attempt_env) (frameworkName : string)
    (testDuration maxRetries manualStart : jsarg) : M (option PerformanceMetrics) :=
  match find (fun c => String.eqb (name c) frameworkName) configs with
  | None => ret None
  | Some cfg =>
      if negb (available cfg) then ret None
      else
        let mr := arg_number maxRetries 2 in
        retry_loop (Z.to_nat mr) 1 mr cfg (arg_truthy manualStart false) (env (name cfg))
  end.

(** [cleanupFramework]: when a live handle is found the function returns the
    promise of the [if] block, before the [delete]. *)
Definition cleanupFramework (frameworkName : string) : M unit :=
  cur <- get_proc frameworkName ;;
  match cur with
  | Some p =>
      if negb (killed p) then
        kill frameworkName p SIGTERM ;;
        alive <- gets (fun st => is_alive (pid p) (os st)) ;;
        (if alive then (sleep 2000 ;; _ <- signal_pid (pid p) SIGKILL ;; ret tt) else ret tt)
      else delete_proc frameworkName ;; sleep 500
  | None => delete_proc frameworkName ;; sleep 500
  end.

(** [testAllFrameworks(testDuration = 10, manualStart = false)]: the call
    [this.testFramework(config.name, testDuration, manualStart)] passes its
    arguments by position. *)
Fixpoint testAll_loop (configs : list FrameworkConfig) (available : FrameworkConfig -> bool)
    (env : string -> nat -> attempt_env) (testDuration : Z) (manualStart : bool)
    (todo : list FrameworkConfig) : M (list PerformanceMetrics) :=
  match todo with
  | [] => ret []
  | cfg :: rest =>
      result <- testFramework configs available env (name cfg)
                  (ANum testDuration) (ABool manualStart) AUndefined ;;
      (if negb manualStart then cleanupFramework (name cfg) ;; sleep 5000 else ret tt) ;;
      results <- testAll_loop configs available env testDuration manualStart rest ;;
      match result with
      | Some m => ret (m :: results)
      | None => ret results
      end
  end.

Definition testAllFrameworks (configs : list FrameworkConfig) (available : FrameworkConfig -> bool)
    (env : string -> nat -> attempt_env) (testDuration : Z) (manualStart : bool)
    : M (list PerformanceMetrics) :=
  testAll_loop configs available env testDuration manualStart (filter available configs).

(** One element of [stopPromises] in [stopAllServers]. After [SIGTERM] the
    code awaits ["exit"] or a 5 s timer whose handler sends [SIGKILL] only
    if [!process.killed]. *)
Definition stop_one (entry : string * ChildProcess) : M unit :=
  let (nm, p) := entry in
  if killed p then ret tt
  else
    kill nm p SIGTERM ;;
    cur <- get_proc nm ;;
    let k := match cur with Some q => killed q | None => killed p end in
    if k then ret tt else (_ <- signal_pid (pid p) SIGKILL ;; ret tt).

Fixpoint stop_each (entries : list (string * ChildProcess)) : M unit :=
  match entries with
  | [] => ret tt
  | e :: rest => stop_one e ;; stop_each rest
  end.

Fixpoint kill_all (pids : list nat) : M unit :=
  match pids with
  | [] => ret tt
  | p :: ps => _ <- signal_pid p SIGKILL ;; kill_all ps
  end.

(** [forceCleanupProcesses]: [kill -9] on every pid [ps aux | grep] lists.
    [ps] and [kill -9] are taken to succeed: the failures the code catches
    and only logs (a command that fails, a pid already gone) are outside this
    model. *)
Definition forceCleanupProcesses : M unit :=
  pids <- gets (fun st => map os_pid (filter matches_cleanup (os st))) ;;
  kill_all pids.

Definition stopAllServers : M unit :=
  entries <- gets serverProcesses ;;
  stop_each entries ;;
  modify (fun st => mkState [] (os st) (log st)) ;;
  sleep 2000 ;;
  forceCleanupProcesses.

End Orchestrator.

(** ** [BatchFrameworkTester.testFramework] (services started by hand) *)

Module Batch.
Import Aggregate Orchestrator.

(** [env_manual_hc] is the record of [healthCheck]'s [sendRequest]. *)
Definition testFramework (cfg : FrameworkConfig) (e : attempt_env) : option PerformanceMetrics :=
  if negb (success (env_manual_hc e)) then None
  else
    match runPerformanceTest (env_batches e) with
    | NoSuccessfulRequests => None
    | Returned r =>
        if (r_totalRequests r <? 10)%nat then None
        else if Qcltb (Q2Qc 50) (errorRate r) then None
        else Some (build_metrics cfg 0 r (env_duration e))
    end.

End Batch.

(** ** The spec's reference definitions *)

Module SpecStats.

(** Modelled from the spec's step 6 of the load generator: over the latency
    array [arr] sorted ascending, [min = arr[0]], [max = arr[last]],
    [avg = sum/len], [p95 = arr[floor(len*0.95)]]. *)
Definition ref_min (arr : list Qc) : Qc := nth 0 arr 0.
Definition ref_max (arr : list Qc) : Qc := nth (length arr - 1) arr 0.
Definition ref_avg (arr : list Qc) : Qc := fold_right Qcplus 0 arr / Qc_of_nat (length arr).
Definition ref_p95 (arr : list Qc) : Qc :=
  nth (Z.to_nat (Qfloor (inject_Z (Z.of_nat (length arr)) * (95 # 100)))) arr 0.

Import Aggregate Orchestrator.


End SpecStats.

(** ** Sample inputs *)

Module Samples.
Import Driver Orchestrator.
Local Open Scope string_scope.

Definition ok_1ms : LatencyRecord := mkLatencyRecord (Q2Qc 1) true.
Definition failed_1ms : LatencyRecord := mkLatencyRecord (Q2Qc 1) false.
Definition ok_1000ms : LatencyRecord := mkLatencyRecord (Q2Qc 1000) true.

(** Twenty 1 ms answers and one slow 1000 ms answer. *)
Definition one_outlier : list (list LatencyRecord) := [repeat ok_1ms 20; [ok_1000ms]].

Definition techempower_json : TestEndpoint :=
  mkEndpoint "/techempower/json" GET None "JSON序列化测试".

Definition hono : FrameworkConfig :=
  mkConfig "hono" "Hono" "frameworks/hono" ["bun"; "run"; "src/index.ts"] 3001.

Definition all_available (_ : FrameworkConfig) : bool := true.

Definition init : state := mkState [] [] [].

(** A server that answers every check in 5 ms and every load request. *)
Definition env_healthy (batches : list (list LatencyRecord)) (_ : string) (_ : nat) : attempt_env :=
  mkEnv 42 true true (fun _ => mkLatencyRecord (Q2Qc 5) true) ok_1ms batches (Q2Qc 10000) None.

(** A target that never listens: every check is refused after 1 ms. *)
Definition env_never_listening : attempt_env :=
  mkEnv 42 true true (fun _ => failed_1ms) failed_1ms [] (Q2Qc 10000) None.

(** [env_never_listening] for every framework and attempt. *)
Definition env_unreachable (_ : string) (_ : nat) : attempt_env := env_never_listening.

(** A Hono server registered and alive that ignores SIGTERM and that no
    pattern of [forceCleanupProcesses] matches. *)
Definition running_hono : state :=
  mkState [("hono", mkChild 42 false)] [mkOsProc 42 false false] [].


(** A server refused by the first three checks that answers the fourth and
    later ones in 5 ms. *)
Definition env_slow_start (batches : list (list LatencyRecord)) (_ : string) (_ : nat) : attempt_env :=
  mkEnv 42 true true (fun i => if (i <? 3)%nat then failed_1ms else mkLatencyRecord (Q2Qc 5) true)
        ok_1ms batches (Q2Qc 10000) None.

(** A stale server still holds the port and answers every check in 5 ms,
    while the new process exits with code 1 ([EADDRINUSE]) 200 ms after
    [coldStartBegin]. *)
Definition env_port_in_use : attempt_env :=
  mkEnv 42 true true (fun _ => mkLatencyRecord (Q2Qc 5) true) ok_1ms [] (Q2Qc 10000)
        (Some (Q2Qc 200, Startup.ExitCode 1)).

End Samples.

(** ** [BatchFrameworkTester.runBatchTest] and [saveSummaryResults] *)

Module Report.
Import Aggregate Orchestrator.

(** [Array.prototype.sort(compareFn)], in place and stable; [gt0 a b] is
    [compareFn(a, b) > 0] (a NaN result counts as 0), the only case in which
    [b] is put before [a]. For a consistent comparator the result of a stable
    sort is unique, so this insertion sort gives what the engine gives. *)
Fixpoint sort_insert {A} (gt0 : A -> A -> bool) (x : A) (l : list A) : list A :=
  match l with
  | [] => [x]
  | y :: ys => if gt0 x y then y :: sort_insert gt0 x ys else x :: y :: ys
  end.

Definition js_sort {A} (gt0 : A -> A -> bool) (l : list A) : list A :=
  fold_right (sort_insert gt0) [] l.

(** [x - y > 0] on the numbers of a record; the only infinity the code
    produces is [+Infinity] (a positive count over a zero duration). *)
Definition js_sub_pos (x y : jsnum) : bool :=
  match x, y with
  | JNum a, JNum b => Qcltb 0 (a - b)
  | JInf, JNum _ => true
  | _, _ => false
  end.

(** The three comparators of [saveSummaryResults]. *)
Definition by_rps (a b : PerformanceMetrics) : bool :=
  js_sub_pos (requestsPerSecond b) (requestsPerSecond a).
Definition by_latency (a b : PerformanceMetrics) : bool :=
  js_sub_pos (m_averageLatency a) (m_averageLatency b).
Definition by_coldStart (a b : PerformanceMetrics) : bool :=
  Qcltb 0 (coldStartTime a - coldStartTime b).

(** [.map((r, i) => ({ rank: i + 1, framework: r.framework, ... }))] *)
Fixpoint rank_from {B} (f : PerformanceMetrics -> B) (i : nat) (l : list PerformanceMetrics)
    : list (nat * string * B) :=
  match l with
  | [] => []
  | r :: rs => (S i, framework r, f r) :: rank_from f (S i) rs
  end.

Record summary := mkSummary {
  totalFrameworks : nat;
  summaryResults : list PerformanceMetrics;     (** [results.map(...)] *)
  byRPS : list (nat * string * jsnum);
  byLatency : list (nat * string * jsnum);
  byColdStart : list (nat * string * Qc)
}.

(** [saveSummaryResults(results)]: the object literal is evaluated in order,
    so [results] is copied before the three [results.sort(...)] calls, which
    sort the caller's array in place one after the other. Returns the summary
    written to the file and the new contents of the array. *)
Definition saveSummaryResults (results : list PerformanceMetrics)
    : summary * list PerformanceMetrics :=
  let total := length results in
  let copied := results in
  let r1 := js_sort by_rps results in
  let rank1 := rank_from requestsPerSecond 0 r1 in
  let r2 := js_sort by_latency r1 in
  let rank2 := rank_from m_averageLatency 0 r2 in
  let r3 := js_sort by_coldStart r2 in
  (mkSummary total copied rank1 rank2 (rank_from coldStartTime 0 r3), r3).

(** The [for (const config of this.frameworkConfigs)] loop of [runBatchTest]:
    [results.push] for every non-null result; [env] is what the world does
    for each framework. *)
Fixpoint batch_loop (env : string -> attempt_env) (configs : list FrameworkConfig)
    : list PerformanceMetrics :=
  match configs with
  | [] => []
  | cfg :: rest =>
      match Batch.testFramework cfg (env (name cfg)) with
      | Some m => m :: batch_loop env rest
      | None => batch_loop env rest
      end
  end.

(** [runBatchTest()]: the array it returns and the summary it writes. The
    5 s wait of manual mode, the output directory, the detailed result files,
    the comparison report (built from copies) and the console output are left
    out: they do not touch [results]. *)
Definition runBatchTest (frameworkConfigs : list FrameworkConfig) (env : string -> attempt_env)
    : list PerformanceMetrics * option summary :=
  let results := batch_loop env frameworkConfigs in
  match results with
  | [] => (results, None)
  | _ :: _ => let (s, arr) := saveSummaryResults results in (arr, Some s)
  end.

End Report.

(** ** [runFullTest] *)

Module FullRun.
Import Orchestrator.

(** [runFullTest(testDuration = 10)]: [testAllFrameworks(testDuration)] with
    its [manualStart] default, then, in [finally], [stopAllServers]. The
    comparison report only prints. *)
Definition runFullTest (configs : list FrameworkConfig) (available : FrameworkConfig -> bool)
    (env : string -> nat -> attempt_env) (testDuration : Z) : M (list PerformanceMetrics) :=
  res <- attempt (testAllFrameworks configs available env testDuration false) ;;
  stopAllServers ;;
  match res with
  | inl e => throw e
  | inr results => ret results
  end.

(** Events that start or signal a process. *)
Definition proc_event (ev : event) : bool :=
  match ev with
  | Spawn _ _ | Kill _ _ => true
  | _ => false
  end.

(** The events of attempt [a] of a manual-mode [testFramework] whose health
    check fails: the 2 s wait, the check, and the back-off unless it was the
    last attempt. *)
Definition manual_fail_events (port maxRetries : Z) (a : nat) : list event :=
  [Sleep 2000; HealthCheck port] ++
  (if (Z.of_nat a <? maxRetries)%Z then [Sleep (Z.of_nat a * 2000)] else []).

End FullRun.

(** ** Properties of the aggregation *)

Module AggregateFacts.
Import Aggregate.

Lemma Qcleb_iff x y : Qcleb x y = true <-> x <= y.
Proof. unfold Qcleb, Qcle. apply Qle_bool_iff. Qed.

Lemma Qcleb_false x y : Qcleb x y = false -> y <= x.
Proof.
  intro H. apply Qcnot_lt_le. intro Hlt. apply Qclt_le_weak in Hlt.
  apply Qcleb_iff in Hlt. congruence.
Qed.

Lemma Qc_of_nat_le a b : (a <= b)%nat -> Qc_of_nat a <= Qc_of_nat b.
Proof.
  intro H. unfold Qcle, Qc_of_nat, Q2Qc. cbn [this]. rewrite !Qred_correct.
  rewrite <- Zle_Qle. lia.
Qed.

Lemma Qc_of_nat_pos a : (0 < a)%nat -> 0 < Qc_of_nat a.
Proof.
  intro H. unfold Qclt, Qc_of_nat, Q2Qc. cbn [this]. rewrite !Qred_correct.
  change 0%Q with (inject_Z 0). rewrite <- Zlt_Qlt. lia.
Qed.


(** *** Counters *)

Definition counters_inv (c : counters) : Prop :=
  totalRequests c = (successRequests c + errorRequests c)%nat /\
  successRequests c = length (latencies c).

Lemma record_result_inv c r : counters_inv c -> counters_inv (record_result c r).
Proof.
  unfold counters_inv, record_result. destruct (success r); simpl;
    rewrite ?length_app; simpl; lia.
Qed.

Lemma processBatch_inv c b : counters_inv c -> counters_inv (processBatch c b).
Proof.
  revert c; induction b as [|r b IH]; intros c H; simpl; auto.
  apply IH, record_result_inv, H.
Qed.

Lemma fold_batches_inv bs : counters_inv (fold_batches bs).
Proof.
  unfold fold_batches.
  assert (H0 : forall c, counters_inv c -> counters_inv (fold_left processBatch bs c)).
  { induction bs as [|b bs IH]; intros c Hc; simpl; auto.
    apply IH, processBatch_inv, Hc. }
  apply H0. split; reflexivity.
Qed.

(** Every latency kept in the array is the latency of a successful record. *)
Lemma processBatch_latencies c b :
  latencies (processBatch c b) = latencies c ++ map latency (filter success b).
Proof.
  revert c; induction b as [|r b IH]; intro c; simpl.
  - rewrite app_nil_r. reflexivity.
  - rewrite IH. unfold record_result. destruct (success r); simpl;
      [rewrite <- app_assoc|]; reflexivity.
Qed.

Lemma fold_batches_latencies bs :
  latencies (fold_batches bs) = flat_map (fun b => map latency (filter success b)) bs.
Proof.
  unfold fold_batches.
  assert (H : forall c, latencies (fold_left processBatch bs c) =
      latencies c ++ flat_map (fun b => map latency (filter success b)) bs).
  { induction bs as [|b bs IH]; intro c; simpl.
    - rewrite app_nil_r. reflexivity.
    - rewrite IH, processBatch_latencies, app_assoc. reflexivity. }
  rewrite H. reflexivity.
Qed.

Lemma in_latencies bs x :
  In x (latencies (fold_batches bs)) ->
  exists b rec, In b bs /\ In rec b /\ success rec = true /\ latency rec = x.
Proof.
  rewrite fold_batches_latencies, in_flat_map.
  intros (b & Hb & Hx). apply in_map_iff in Hx as (rec & Hl & Hr).
  apply filter_In in Hr as [Hr Hs]. exists b, rec. auto.
Qed.

Lemma latencies_nil_iff bs :
  latencies (fold_batches bs) = [] <->
  (forall b rec, In b bs -> In rec b -> success rec = false).
Proof.
  rewrite fold_batches_latencies. split.
  - intros H b rec Hb Hr. destruct (success rec) eqn:Hs; [|reflexivity].
    exfalso. assert (Hin : In (latency rec) (flat_map (fun b => map latency (filter success b)) bs)).
    { apply in_flat_map. exists b. split; [exact Hb|]. apply in_map. apply filter_In. auto. }
    rewrite H in Hin. destruct Hin.
  - intro H. destruct (flat_map (fun b => map latency (filter success b)) bs) as [|x l] eqn:E;
      [reflexivity|]. exfalso.
    assert (Hin : In x (flat_map (fun b => map latency (filter success b)) bs)) by (rewrite E; left; auto).
    apply in_flat_map in Hin as (b & Hb & Hx). apply in_map_iff in Hx as (rec & _ & Hr).
    apply filter_In in Hr as [Hr Hs]. rewrite (H b rec Hb Hr) in Hs. discriminate.
Qed.

(** *** Sorting *)

Lemma insert_perm x l : Permutation (x :: l) (insert x l).
Proof.
  induction l as [|y l IH]; simpl; [reflexivity|].
  destruct (Qcleb x y); [reflexivity|].
  rewrite perm_swap. apply perm_skip, IH.
Qed.

Lemma sort_asc_perm l : Permutation l (sort_asc l).
Proof.
  induction l as [|x l IH]; simpl; [reflexivity|].
  rewrite <- insert_perm. apply perm_skip, IH.
Qed.

Lemma insert_sorted x l : Sorted Qcle l -> Sorted Qcle (insert x l).
Proof.
  induction 1 as [|y l Hs IH Hhd]; simpl.
  - repeat constructor.
  - destruct (Qcleb x y) eqn:Exy.
    + constructor; [constructor; auto|]. constructor. apply Qcleb_iff, Exy.
    + apply Qcleb_false in Exy. constructor; [exact IH|].
      destruct l as [|z l]; simpl; [constructor; exact Exy|].
      inversion Hhd; subst. destruct (Qcleb x z); constructor; auto.
Qed.

Lemma sort_asc_sorted l : Sorted Qcle (sort_asc l).
Proof.
  induction l as [|x l IH]; simpl; [constructor|]. apply insert_sorted, IH.
Qed.

Lemma Qcle_Transitive : Relations_1.Transitive Qcle.
Proof. intros x y z. apply Qcle_trans. Qed.

Lemma sorted_strongly l : Sorted Qcle l -> StronglySorted Qcle l.
Proof. apply Sorted_StronglySorted. exact Qcle_trans. Qed.


(** Two sorted permutations of the same array are the same array. *)
Lemma sorted_perm_unique s1 s2 :
  Sorted Qcle s1 -> Sorted Qcle s2 -> Permutation s1 s2 -> s1 = s2.
Proof.
  intros H1 H2. apply sorted_strongly in H1, H2. revert s2 H2.
  induction H1 as [|x s1 H1 IH Hall1]; intros s2 H2 Hp.
  - symmetry. apply Permutation_nil, Hp.
  - destruct H2 as [|y s2 H2 Hall2].
    + apply Permutation_sym, Permutation_nil in Hp. discriminate.
    + rewrite Forall_forall in Hall1, Hall2.
      assert (Hxy : x = y).
      { apply Qcle_antisym.
        - assert (Hy : In y (x :: s1)) by (apply (Permutation_in _ (Permutation_sym Hp)); left; auto).
          destruct Hy as [->|Hy]; [apply Qcle_refl|]. apply Hall1, Hy.
        - assert (Hx : In x (y :: s2)) by (apply (Permutation_in _ Hp); left; auto).
          destruct Hx as [->|Hx]; [apply Qcle_refl|]. apply Hall2, Hx. }
      subst y. f_equal. apply IH; [exact H2|]. apply Permutation_cons_inv in Hp. exact Hp.
Qed.

(** *** Sums *)

Lemma sum_acc l a : fold_left (fun s lat => s + lat) l a = a + sum l.
Proof.
  unfold sum. revert a. induction l as [|x l IH]; intro a; simpl.
  - ring.
  - rewrite IH, (IH (0 + x)). ring.
Qed.

Lemma sum_cons x l : sum (x :: l) = x + sum l.
Proof. unfold sum at 1. simpl. rewrite sum_acc. ring. Qed.

Lemma sum_perm l l' : Permutation l l' -> sum l = sum l'.
Proof.
  induction 1 as [| x l l' _ IH | x y l | l l' l'' _ IH1 _ IH2].
  - reflexivity.
  - rewrite !sum_cons, IH. reflexivity.
  - rewrite !sum_cons. ring.
  - congruence.
Qed.



(** Dividing bounds of the form [n * lo <= a <= n * hi] by [n > 0]. *)
Lemma div_bounds lo hi a n :
  0 < n -> n * lo <= a -> a <= n * hi -> lo <= a / n /\ a / n <= hi.
Proof.
  intros Hn Hlo Hhi. assert (Hne : n <> 0) by (apply not_eq_sym, Qclt_not_eq, Hn).
  assert (Ha : (a / n) * n = a) by (rewrite Qcmult_comm; apply Qcmult_div_r, Hne).
  split; apply (Qcmult_lt_0_le_reg_r _ _ n Hn); rewrite Ha.
  - rewrite Qcmult_comm. exact Hlo.
  - rewrite Qcmult_comm. exact Hhi.
Qed.

(** *** The p95 index *)

Lemma p95_index_Z n : Z.of_nat (p95_index n) = (Z.of_nat n * 95 / 100)%Z.
Proof.
  unfold p95_index, Qfloor. cbn -[Z.mul Z.div].
  rewrite Z2Nat.id; [reflexivity|]. apply Z.div_pos; lia.
Qed.

Lemma p95_index_bounds n : (1 <= n)%nat -> (n / 2 <= p95_index n <= n - 1)%nat.
Proof.
  intro Hn. pose proof (p95_index_Z n) as H.
  assert (H2 : Z.of_nat (n / 2) = (Z.of_nat n / 2)%Z) by (rewrite Nat2Z.inj_div; reflexivity).
  split; apply Nat2Z.inj_le; rewrite ?H, ?H2, ?Nat2Z.inj_sub by lia;
    Z.to_euclidean_division_equations; lia.
Qed.

(** *** Error rate *)

Lemma error_rate_bounds total errors :
  (errors <= total)%nat -> 0 <= error_rate total errors /\ error_rate total errors <= Q2Qc 100.
Proof.
  intro Hle. unfold error_rate. destruct (0 <? total)%nat eqn:Ht.
  - apply Nat.ltb_lt in Ht. pose proof (Qc_of_nat_pos _ Ht) as Hpos.
    assert (H0 : Qc_of_nat 0 <= Qc_of_nat errors) by (apply Qc_of_nat_le; lia).
    assert (H1 : Qc_of_nat errors <= Qc_of_nat total) by (apply Qc_of_nat_le, Hle).
    change (Qc_of_nat 0) with 0 in H0.
    destruct (div_bounds 0 1 (Qc_of_nat errors) (Qc_of_nat total) Hpos) as [Hl Hh].
    + rewrite Qcmult_0_r. exact H0.
    + rewrite Qcmult_1_r. exact H1.
    + assert (H100 : 0 <= Q2Qc 100) by (unfold Qcle; simpl; discriminate).
      split.
      * rewrite <- (Qcmult_0_l (Q2Qc 100)). apply Qcmult_le_compat_r; assumption.
      * rewrite <- (Qcmult_1_l (Q2Qc 100)) at 2. apply Qcmult_le_compat_r; assumption.
  - split; [apply Qcle_refl|unfold Qcle; simpl; discriminate].
Qed.

(** *** What [summarize] returns *)

Lemma nth_error_nth_lt (s : list Qc) i : (i < length s)%nat -> nth_error s i = Some (nth i s 0).
Proof. intro H. apply nth_error_nth'. exact H. Qed.

Lemma js_div_pos a n : (0 < n)%nat -> js_div a (Qc_of_nat n) = JNum (a / Qc_of_nat n).
Proof.
  intro H. unfold js_div. destruct (Qc_eq_bool (Qc_of_nat n) 0) eqn:E; [|reflexivity].
  apply Qc_eq_bool_correct in E. pose proof (Qc_of_nat_pos n H) as Hp.
  rewrite E in Hp. discriminate.
Qed.

Lemma summarize_returned c r :
  counters_inv c -> summarize c = Returned r ->
  let s := sort_asc (latencies c) in
  let n := length s in
  (1 <= n)%nat /\
  r_totalRequests r = successRequests c /\
  averageLatency r = JNum (sum s / Qc_of_nat n) /\
  minLatency r = JNum (nth 0 s 0) /\
  maxLatency r = JNum (nth (n - 1) s 0) /\
  p95Latency r = JNum (nth (p95_index n) s 0) /\
  errorRate r = error_rate (totalRequests c) (errorRequests c).
Proof.
  intros Hinv H s n. unfold summarize in H.
  destruct (length (latencies c) =? 0)%nat eqn:E; [discriminate|].
  apply Nat.eqb_neq in E. injection H as <-.
  assert (Hn : n = length (latencies c)) by (apply Permutation_length, Permutation_sym, sort_asc_perm).
  assert (Hn1 : (1 <= n)%nat) by lia.
  pose proof (p95_index_bounds n Hn1).
  fold s n. unfold js_index. rewrite js_div_pos by lia.
  rewrite !nth_error_nth_lt by lia. repeat split; auto.
Qed.

Lemma summarize_nil c : latencies c = [] -> summarize c = NoSuccessfulRequests.
Proof. intro H. unfold summarize. rewrite H. reflexivity. Qed.

Lemma summarize_cons c : latencies c <> [] -> exists r, summarize c = Returned r.
Proof.
  intro H. unfold summarize. destruct (length (latencies c) =? 0)%nat eqn:E.
  - apply Nat.eqb_eq, length_zero_iff_nil in E. contradiction.
  - eexists. reflexivity.
Qed.


Lemma sum_fold_right l : sum l = fold_right Qcplus 0 l.
Proof.
  induction l as [|x l IH]; [reflexivity|]. rewrite sum_cons, IH. reflexivity.
Qed.

End AggregateFacts.

(** ** Properties of the request driver and of the readiness polling *)

Module DriverFacts.
Import Driver.

Lemma Qcltb_false x y : Qcltb x y = false -> y <= x.
Proof. unfold Qcltb. intro H. apply negb_false_iff, AggregateFacts.Qcleb_iff in H. exact H. Qed.

Lemma Qcltb_true x y : Qcltb x y = true -> x < y.
Proof.
  unfold Qcltb. intro H. apply negb_true_iff in H.
  destruct (Qclt_le_dec x y) as [Hlt|Hle]; [exact Hlt|].
  apply AggregateFacts.Qcleb_iff in Hle. congruence.
Qed.

Lemma Qcltb_le x y : y <= x -> Qcltb x y = false.
Proof. intro H. unfold Qcltb. apply negb_false_iff, AggregateFacts.Qcleb_iff, H. Qed.

Lemma Qcltb_lt x y : x < y -> Qcltb x y = true.
Proof.
  intro H. unfold Qcltb. apply negb_true_iff.
  destruct (Qcleb y x) eqn:E; [|reflexivity].
  apply AggregateFacts.Qcleb_iff in E. exfalso. apply (Qclt_not_le _ _ H E).
Qed.

(** The executor always settles with a value. *)
Lemma settle_fulfilled k startTime last status evs :
  exists r, settle k startTime last status evs = Fulfilled r.
Proof.
  revert last status. induction evs as [|[t ev] evs IH]; intros last status; simpl.
  - eexists; reflexivity.
  - destruct (Qcltb (last + request_timeout k) t); [eexists; reflexivity|].
    destruct ev; auto; [|eexists; reflexivity].
    destruct status; auto. eexists; reflexivity.
Qed.

(** A prefix of response-header and body-chunk events, each arriving before
    the idle timer fires; [last_time] is the time of the last one. *)
Fixpoint open_prefix (k : request_kind) (last : Qc) (pre : list (Qc * net_event)) : bool :=
  match pre with
  | [] => true
  | (t, ev) :: rest =>
      negb (Qcltb (last + request_timeout k) t) &&
      match ev with EvResponse _ | EvData => open_prefix k t rest | _ => false end
  end.

Fixpoint last_time (last : Qc) (pre : list (Qc * net_event)) : Qc :=
  match pre with
  | [] => last
  | (t, _) :: rest => last_time t rest
  end.

Fixpoint last_status (status : option Z) (pre : list (Qc * net_event)) : option Z :=
  match pre with
  | [] => status
  | (_, EvResponse st) :: rest => last_status (Some st) rest
  | _ :: rest => last_status status rest
  end.

Lemma settle_prefix k startTime last status pre rest :
  open_prefix k last pre = true ->
  settle k startTime last status (pre ++ rest) =
  settle k startTime (last_time last pre) (last_status status pre) rest.
Proof.
  revert last status. induction pre as [|[t ev] pre IH]; intros last status H; simpl; auto.
  simpl in H. apply andb_prop in H as [H1 H2]. apply negb_true_iff in H1. rewrite H1.
  destruct ev; try discriminate; apply IH; exact H2.
Qed.

End DriverFacts.

Module StartupFacts.
Import Startup.

Lemma checkServerReady_all_fail fuel n now hc :
  (forall i, (n <= i < maxAttempts)%nat -> success (hc i) = false) ->
  checkServerReady fuel n now hc = Rejected EStartTimeout.
Proof.
  revert n now. induction fuel as [|fuel IH]; intros n now H; cbn [checkServerReady]; [reflexivity|].
  destruct (maxAttempts <=? n)%nat eqn:E; [reflexivity|].
  apply Nat.leb_gt in E. rewrite (H n) by lia. apply IH.
  intros i Hi. apply H. lia.
Qed.


Lemma checkServerReady_first_success fuel n j hc :
  (n <= j < maxAttempts)%nat -> (j - n < fuel)%nat ->
  (forall i, (n <= i < j)%nat -> success (hc i) = false) ->
  success (hc j) = true ->
  checkServerReady fuel n (check_start hc n) hc = Fulfilled (check_start hc j + latency (hc j)).
Proof.
  revert n. induction fuel as [|fuel IH]; intros n Hj Hf Hfail Hok; [lia|]. cbn [checkServerReady].
  destruct (maxAttempts <=? n)%nat eqn:E; [apply Nat.leb_le in E; lia|].
  destruct (Nat.eq_dec n j) as [->|Hne].
  - rewrite Hok. reflexivity.
  - rewrite (Hfail n) by lia.
    change (check_start hc n + latency (hc n) + Q2Qc 100) with (check_start hc (S n)).
    apply IH; auto; try lia. intros i Hi. apply Hfail. lia.
Qed.

End StartupFacts.

(** ** Properties of the orchestrator *)

Module OrchestratorFacts.
Import Aggregate Orchestrator.

Lemma bind_inr {A B} (m : M A) (k : A -> M B) st b st' :
  bind m k st = (inr b, st') ->
  exists a st1, m st = (inr a, st1) /\ k a st1 = (inr b, st').
Proof.
  unfold bind. destruct (m st) as [[e|a] st1]; intro H; [discriminate|].
  exists a, st1. auto.
Qed.

(** [m] never throws. *)
Definition nothrow {A} (m : M A) : Prop := forall st, exists a st', m st = (inr a, st').

Lemma nothrow_ret {A} (a : A) : nothrow (ret a).
Proof. intro st. exists a, st. reflexivity. Qed.

Lemma nothrow_bind {A B} (m : M A) (k : A -> M B) :
  nothrow m -> (forall a, nothrow (k a)) -> nothrow (bind m k).
Proof.
  intros Hm Hk st. destruct (Hm st) as (a & st1 & E). unfold bind. rewrite E. apply Hk.
Qed.

Lemma nothrow_modify f : nothrow (modify f).
Proof. intro st. eexists _, _. reflexivity. Qed.

Lemma nothrow_gets {A} (f : state -> A) : nothrow (gets f).
Proof. intro st. eexists _, _. reflexivity. Qed.

Lemma nothrow_signal_pid p sig : nothrow (signal_pid p sig).
Proof. intro st. unfold signal_pid. destruct (is_alive p (os st)); eexists _, _; reflexivity. Qed.

Create HintDb nothrow.
#[local] Hint Resolve nothrow_ret nothrow_bind nothrow_modify nothrow_gets nothrow_signal_pid : nothrow.

Lemma nothrow_kill nm p sig : nothrow (kill nm p sig).
Proof.
  unfold kill. apply nothrow_bind; [apply nothrow_signal_pid|]. intros [|]; [|apply nothrow_ret].
  apply nothrow_bind; [apply nothrow_gets|]. intros [q|]; [|apply nothrow_ret].
  destruct (pid q =? pid p)%nat; [apply nothrow_modify|apply nothrow_ret].
Qed.
#[local] Hint Resolve nothrow_kill : nothrow.

Lemma nothrow_stop_each es : nothrow (stop_each es).
Proof.
  induction es as [|[nm p] es IH]; simpl; [apply nothrow_ret|].
  apply nothrow_bind; [|intros _; exact IH].
  destruct (killed p); [apply nothrow_ret|].
  apply nothrow_bind; [apply nothrow_kill|]. intros _.
  apply nothrow_bind; [apply nothrow_gets|]. intros cur.
  destruct (match cur with Some q => killed q | None => false end);
    eauto with nothrow.
Qed.

(** [signal_pid p SIGKILL] removes every process with pid [p]. *)
Lemma signal_pid_kill p st :
  exists b, signal_pid p SIGKILL st =
    (@inr test_error bool b, mkState (serverProcesses st)
              (filter (fun q => negb (Nat.eqb (os_pid q) p)) (os st))
              (log st ++ if b then [Kill p SIGKILL] else [])).
Proof.
  unfold signal_pid. destruct (is_alive p (os st)) eqn:E.
  - exists true. f_equal. f_equal. apply filter_ext. intro q. rewrite andb_true_r. reflexivity.
  - exists false. destruct st as [sp o l]. simpl in *. rewrite app_nil_r. f_equal. f_equal.
    symmetry. apply forallb_filter_id. apply forallb_forall. intros q Hq.
    destruct (os_pid q =? p)%nat eqn:Eq; [|reflexivity].
    exfalso. unfold is_alive in E.
    assert (Ht : existsb (fun q0 => (os_pid q0 =? p)%nat) o = true)
      by (apply existsb_exists; exists q; auto).
    congruence.
Qed.

Lemma filter_twice {A} (f g : A -> bool) l :
  filter g (filter f l) = filter (fun x => f x && g x) l.
Proof.
  induction l as [|x l IH]; simpl; [reflexivity|].
  destruct (f x); simpl; [destruct (g x)|]; simpl; congruence.
Qed.

Lemma kill_all_spec ps st :
  exists l, kill_all ps st =
    (@inr test_error unit tt, mkState (serverProcesses st)
               (filter (fun q => negb (existsb (Nat.eqb (os_pid q)) ps)) (os st))
               (log st ++ l)) /\
    (ps = [] -> l = []).
Proof.
  revert st. induction ps as [|p ps IH]; intro st; simpl.
  - exists []. split; [|reflexivity]. destruct st as [sp o l]. simpl.
    assert (Hf : filter (fun _ : os_proc => true) o = o)
      by (induction o as [|q o IHo]; simpl; congruence).
    rewrite Hf, app_nil_r. reflexivity.
  - destruct (signal_pid_kill p st) as [b E]. unfold bind. rewrite E.
    destruct (IH (mkState (serverProcesses st)
                   (filter (fun q => negb (os_pid q =? p)%nat) (os st))
                   (log st ++ (if b then [Kill p SIGKILL] else [])))) as (l & E2 & _).
    rewrite E2. simpl. eexists. split; [|discriminate]. f_equal. f_equal.
    + rewrite filter_twice. apply filter_ext. intro q. destruct (os_pid q =? p)%nat; reflexivity.
    + rewrite <- app_assoc. reflexivity.
Qed.

Lemma filter_none_match o :
  forallb (fun q => negb (matches_cleanup q))
    (filter (fun q => negb (existsb (Nat.eqb (os_pid q))
                             (map os_pid (filter matches_cleanup o)))) o) = true.
Proof.
  apply forallb_forall. intros q Hq. apply filter_In in Hq as [Hq Hn].
  destruct (matches_cleanup q) eqn:Em; [|reflexivity]. exfalso.
  assert (Hx : existsb (Nat.eqb (os_pid q)) (map os_pid (filter matches_cleanup o)) = true).
  { apply existsb_exists. exists (os_pid q). split; [|apply Nat.eqb_refl].
    apply in_map, filter_In. auto. }
  rewrite Hx in Hn. discriminate.
Qed.

(** After [stopAllServers] the map is empty and no process matching the
    cleanup patterns is left. *)
Lemma stopAllServers_after st :
  exists st1, stopAllServers st = (inr tt, st1) /\ serverProcesses st1 = [] /\
    forallb (fun q => negb (matches_cleanup q)) (os st1) = true.
Proof.
  unfold stopAllServers. unfold bind at 1. unfold gets at 1.
  unfold bind at 1. destruct (nothrow_stop_each (serverProcesses st) st) as (a & sa & E).
  rewrite E. unfold bind, modify, sleep, emit, modify, forceCleanupProcesses, gets. simpl.
  unfold bind. simpl.
  match goal with
  | |- exists st1, kill_all ?ps ?s0 = _ /\ _ => destruct (kill_all_spec ps s0) as (l & E2 & _)
  end.
  rewrite E2. eexists. split; [reflexivity|]. split; [reflexivity|]. simpl.
  apply filter_none_match.
Qed.

(** From such a state, [stopAllServers] only sleeps. *)
Lemma stopAllServers_quiet st :
  serverProcesses st = [] ->
  forallb (fun q => negb (matches_cleanup q)) (os st) = true ->
  stopAllServers st = (inr tt, mkState [] (os st) (log st ++ [Sleep 2000])).
Proof.
  intros Hsp Hm. unfold stopAllServers, bind, gets, modify, sleep, emit, modify,
    forceCleanupProcesses. rewrite Hsp. simpl. unfold bind. simpl.
  assert (Hf : filter matches_cleanup (os st) = []).
  { destruct (filter matches_cleanup (os st)) as [|q l] eqn:Ef; [reflexivity|].
    exfalso. assert (Hq : In q (filter matches_cleanup (os st))) by (rewrite Ef; left; auto).
    apply filter_In in Hq as [Hq Hmq]. rewrite forallb_forall in Hm.
    specialize (Hm q Hq). rewrite Hmq in Hm. discriminate. }
  rewrite Hf. reflexivity.
Qed.

(** *** Where a reported record comes from *)

Lemma run_and_gate_ok cfg cs e st m st' :
  run_and_gate cfg cs e st = (inr m, st') ->
  exists r, runPerformanceTest (env_batches e) = Returned r /\
    m = build_metrics cfg cs r (env_duration e) /\
    (10 <= r_totalRequests r)%nat /\ errorRate r <= Q2Qc 50.
Proof.
  unfold run_and_gate, bind, emit, modify. cbn beta iota.
  destruct (runPerformanceTest (env_batches e)) as [|r]; [discriminate|].
  destruct (r_totalRequests r <? 10)%nat eqn:E1; [discriminate|].
  destruct (Qcltb (Q2Qc 50) (errorRate r)) eqn:E2; [discriminate|].
  intro H. injection H as <- _. exists r. repeat split; auto.
  - apply Nat.ltb_ge, E1.
  - apply DriverFacts.Qcltb_false, E2.
Qed.

Lemma run_and_gate_fail cfg cs e st r :
  runPerformanceTest (env_batches e) = Returned r ->
  ((r_totalRequests r < 10)%nat \/ Q2Qc 50 < errorRate r) ->
  exists err st', run_and_gate cfg cs e st = (inl err, st').
Proof.
  intros Hr Hg. unfold run_and_gate, bind, emit, modify. cbn beta iota. rewrite Hr.
  destruct (r_totalRequests r <? 10)%nat eqn:E1; [eexists _, _; reflexivity|].
  apply Nat.ltb_ge in E1. destruct Hg as [Hg|Hg]; [lia|].
  rewrite (DriverFacts.Qcltb_lt _ _ Hg). eexists _, _; reflexivity.
Qed.

Lemma manual_cold_start cfg e st cs st1 :
  (sleep 2000 ;; emit (HealthCheck (port cfg)) ;;
   if success (env_manual_hc e) then ret 0 else throw EServiceUnavailable) st = (inr cs, st1) ->
  cs = 0.
Proof.
  unfold bind, sleep, emit, modify. cbn beta iota.
  destruct (success (env_manual_hc e)); [|discriminate].
  intro H. injection H as <- _. reflexivity.
Qed.

Lemma attempt_body_ok cfg manualStart e st m st' :
  attempt_body cfg manualStart e st = (inr m, st') ->
  exists cs st1, run_and_gate cfg cs e st1 = (inr m, st') /\ (manualStart = true -> cs = 0).
Proof.
  unfold attempt_body. intro H. apply bind_inr in H as (cs & st1 & H1 & H2).
  exists cs, st1. split; [exact H2|]. intros ->. simpl in H1.
  eapply manual_cold_start. exact H1.
Qed.

Lemma retry_loop_ok fuel n mr cfg manualStart env st m st' :
  retry_loop fuel n mr cfg manualStart env st = (inr (Some m), st') ->
  exists k st1 st2, attempt_body cfg manualStart (env k) st1 = (inr m, st2).
Proof.
  revert n st. induction fuel as [|fuel IH]; intros n st H; simpl in H; [discriminate|].
  destruct (Z.of_nat n <=? mr)%Z; [|discriminate].
  unfold bind at 1, attempt in H.
  destruct (attempt_body cfg manualStart (env n) st) as [[err|m0] st1] eqn:E.
  - apply bind_inr in H as (u & st2 & _ & H).
    apply bind_inr in H as (u' & st3 & _ & H). eapply IH. exact H.
  - unfold ret in H. injection H as -> _. exists n, st, st1. exact E.
Qed.

Lemma testFramework_ok configs available env fname a1 a2 a3 st m st' :
  testFramework configs available env fname a1 a2 a3 st = (inr (Some m), st') ->
  exists cfg k cs st1 st2,
    run_and_gate cfg cs (env (name cfg) k) st1 = (inr m, st2) /\
    (arg_truthy a3 false = true -> cs = 0).
Proof.
  unfold testFramework.
  destruct (find (fun c => String.eqb (name c) fname) configs) as [cfg|]; [|discriminate].
  destruct (negb (available cfg)); [discriminate|].
  intro H. apply retry_loop_ok in H as (k & st1 & st2 & H).
  apply attempt_body_ok in H as (cs & st3 & H & Hc).
  exists cfg, k, cs, st3, st2. split; auto.
Qed.


Lemma is_alive_exit pid o :
  is_alive pid (filter (fun q => negb (Nat.eqb (os_pid q) pid)) o) = false.
Proof.
  induction o as [|q o IH]; [reflexivity|]. simpl.
  destruct (os_pid q =? pid)%nat eqn:E; simpl; [exact IH|]. rewrite E. exact IH.
Qed.

Lemma batch_testFramework_ok cfg e m :
  Batch.testFramework cfg e = Some m ->
  exists r, runPerformanceTest (env_batches e) = Returned r /\
    m = build_metrics cfg 0 r (env_duration e) /\
    (10 <= r_totalRequests r)%nat /\ errorRate r <= Q2Qc 50 /\ success (env_manual_hc e) = true.
Proof.
  unfold Batch.testFramework. destruct (success (env_manual_hc e)) eqn:Eh; [|discriminate].
  simpl. destruct (runPerformanceTest (env_batches e)) as [|r]; [discriminate|].
  destruct (r_totalRequests r <? 10)%nat eqn:E1; [discriminate|].
  destruct (Qcltb (Q2Qc 50) (errorRate r)) eqn:E2; [discriminate|].
  intro H. injection H as <-. exists r. repeat split; auto.
  - apply Nat.ltb_ge, E1.
  - apply DriverFacts.Qcltb_false, E2.
Qed.

End OrchestratorFacts.

(** ** From a run to its reported record *)

Module RecordFacts.
Import Aggregate AggregateFacts Orchestrator OrchestratorFacts SpecStats.

Lemma runPerformanceTest_returned b r :
  runPerformanceTest b = Returned r ->
  let s := sort_asc (latencies (fold_batches b)) in
  let n := length s in
  (1 <= n)%nat /\
  r_totalRequests r = successRequests (fold_batches b) /\
  averageLatency r = JNum (sum s / Qc_of_nat n) /\
  minLatency r = JNum (nth 0 s 0) /\
  maxLatency r = JNum (nth (n - 1) s 0) /\
  p95Latency r = JNum (nth (p95_index n) s 0) /\
  0 <= errorRate r /\ errorRate r <= Q2Qc 100.
Proof.
  intros H s n. pose proof (fold_batches_inv b) as Hinv.
  destruct (summarize_returned _ _ Hinv H) as (Hn & Ht & Ha & Hmn & Hmx & Hp & He).
  repeat (split; [assumption|]). rewrite He.
  apply error_rate_bounds. destruct Hinv as [Hinv _]. lia.
Qed.


End RecordFacts.

(** ** Helpers for the claims *)

Module ClaimFacts.
Import Aggregate AggregateFacts Driver DriverFacts Orchestrator.

Lemma no_success_latencies bs :
  existsb (fun b => existsb success b) bs = false -> latencies (fold_batches bs) = [].
Proof.
  intro H. apply latencies_nil_iff. intros b rec Hb Hr.
  destruct (success rec) eqn:Hs; [|reflexivity]. exfalso.
  assert (Ht : existsb (fun b => existsb success b) bs = true).
  { apply existsb_exists. exists b. split; [exact Hb|]. apply existsb_exists. exists rec. auto. }
  congruence.
Qed.

Lemma some_success_latencies bs :
  existsb (fun b => existsb success b) bs = true -> latencies (fold_batches bs) <> [].
Proof.
  intros H Hn. pose proof (proj1 (latencies_nil_iff bs) Hn) as Hf. clear Hn.
  apply existsb_exists in H as (b & Hb & H). apply existsb_exists in H as (rec & Hr & Hs).
  rewrite (Hf b rec Hb Hr) in Hs. discriminate.
Qed.

Lemma length_sort_asc l : length (sort_asc l) = length l.
Proof. symmetry. apply Permutation_length, sort_asc_perm. Qed.

Lemma send_settle k ep port startTime evs :
  send k ep port startTime evs = settle k startTime startTime None evs.
Proof. destruct k; reflexivity. Qed.

End ClaimFacts.

(** * The claims *)

Module Claims.
Import Aggregate AggregateFacts Driver DriverFacts Startup StartupFacts
       Orchestrator OrchestratorFacts SpecStats RecordFacts Samples ClaimFacts.




(** C2. A run with no successful request makes [runPerformanceTest] throw
    (no record at all), so the attempt of [testFramework] fails with that
    error and [BatchFrameworkTester.testFramework] reports nothing; a run with
    a successful request returns a record whose four statistics are finite
    numbers (never NaN, an infinity or undefined). *)
Theorem zero_success_raises batches :
  (existsb (fun b => existsb success b) batches = false ->
     runPerformanceTest batches = NoSuccessfulRequests /\
     (forall cfg cs e st, env_batches e = batches ->
        exists st', run_and_gate cfg cs e st = (inl ENoSuccessfulRequests, st')) /\
     (forall cfg e, env_batches e = batches -> Batch.testFramework cfg e = None)) /\
  (existsb (fun b => existsb success b) batches = true ->
     exists r mn av mx p, runPerformanceTest batches = Returned r /\
       minLatency r = JNum mn /\ averageLatency r = JNum av /\
       maxLatency r = JNum mx /\ p95Latency r = JNum p).
Proof.
  split.
  - intro H. assert (Hr : runPerformanceTest batches = NoSuccessfulRequests)
      by (apply summarize_nil, no_success_latencies, H).
    split; [exact Hr|]. split.
    + intros cfg cs e st He. unfold run_and_gate, bind, emit, modify. cbn beta iota.
      rewrite He, Hr. eexists. reflexivity.
    + intros cfg e He. unfold Batch.testFramework. rewrite He, Hr.
      destruct (negb (success (env_manual_hc e))); reflexivity.
  - intro H. destruct (summarize_cons _ (some_success_latencies _ H)) as [r Hr].
    destruct (runPerformanceTest_returned batches r Hr) as (_ & _ & Ha & Hmn & Hmx & Hp & _).
    do 5 eexists. split; [exact Hr|]. eauto.
Qed.

Lemma zero_success_raises_witness :
  existsb (fun b => existsb success b) [[failed_1ms]] = false /\
  runPerformanceTest [[failed_1ms]] = NoSuccessfulRequests /\
  existsb (fun b => existsb success b) [[ok_1ms]] = true /\
  exists r mn av mx p, runPerformanceTest [[ok_1ms]] = Returned r /\
    minLatency r = JNum mn /\ averageLatency r = JNum av /\
    maxLatency r = JNum mx /\ p95Latency r = JNum p.
Proof.
  split; [reflexivity|]. split; [apply (proj1 (zero_success_raises [[failed_1ms]])); reflexivity|].
  split; [reflexivity|]. apply (proj2 (zero_success_raises [[ok_1ms]])). reflexivity.
Defined.

(** C10. For a run with [n >= 1] successful latencies the p95 index
    [floor(n * 0.95)] is at most [n - 1]; the record is returned with the
    reads at [0], [n - 1] and the p95 index all in range (finite numbers), and
    the p95 value is the latency of a successful request of the run. *)
Theorem p95_index_in_range batches :
  (1 <= length (latencies (fold_batches batches)))%nat ->
  let n := length (latencies (fold_batches batches)) in
  (p95_index n <= n - 1)%nat /\
  exists r mn mx x, runPerformanceTest batches = Returned r /\
    minLatency r = JNum mn /\ maxLatency r = JNum mx /\ p95Latency r = JNum x /\
    exists b rec, In b batches /\ In rec b /\ success rec = true /\ latency rec = x.
Proof.
  intros Hn n. pose proof (p95_index_bounds n Hn) as [_ Hb]. split; [exact Hb|].
  assert (Hne : latencies (fold_batches batches) <> [])
    by (intro E; unfold n in Hn; rewrite E in Hn; simpl in Hn; lia).
  destruct (summarize_cons _ Hne) as [r Hr].
  destruct (runPerformanceTest_returned batches r Hr) as (_ & _ & _ & Hmn & Hmx & Hp & _).
  rewrite length_sort_asc in Hp, Hmx.
  do 4 eexists. split; [exact Hr|]. split; [exact Hmn|]. split; [exact Hmx|].
  split; [exact Hp|]. apply in_latencies.
  apply (Permutation_in _ (Permutation_sym (sort_asc_perm _))). apply nth_In.
  rewrite length_sort_asc. fold n. lia.
Qed.

Lemma p95_index_in_range_witness :
  (1 <= length (latencies (fold_batches one_outlier)))%nat /\
  (p95_index (length (latencies (fold_batches one_outlier))) <=
   length (latencies (fold_batches one_outlier)) - 1)%nat.
Proof.
  assert (H : (1 <= length (latencies (fold_batches one_outlier)))%nat) by (vm_compute; lia).
  split; [exact H|]. exact (proj1 (p95_index_in_range one_outlier H)).
Defined.

(** C8. For any ascending array [arr] holding the run's successful
    latencies (a permutation of them), non-empty, [runPerformanceTest]
    returns [min = arr[0]], [max = arr[len-1]], [avg = sum/len] and
    [p95 = arr[floor(len*0.95)]], the spec's reference definitions. *)
Theorem summary_matches_reference batches arr :
  Sorted Qcle arr -> Permutation (latencies (fold_batches batches)) arr -> arr <> [] ->
  exists r, runPerformanceTest batches = Returned r /\
    minLatency r = JNum (ref_min arr) /\ maxLatency r = JNum (ref_max arr) /\
    averageLatency r = JNum (ref_avg arr) /\ p95Latency r = JNum (ref_p95 arr).
Proof.
  intros Hs Hp Hne.
  assert (Hl : latencies (fold_batches batches) <> [])
    by (intro E; rewrite E in Hp; apply Permutation_nil in Hp; contradiction).
  destruct (summarize_cons _ Hl) as [r Hr]. exists r. split; [exact Hr|].
  destruct (runPerformanceTest_returned batches r Hr) as (_ & _ & Ha & Hmn & Hmx & Hq & _).
  assert (E : sort_asc (latencies (fold_batches batches)) = arr).
  { apply sorted_perm_unique; [apply sort_asc_sorted|exact Hs|].
    apply (Permutation_trans (Permutation_sym (sort_asc_perm _))), Hp. }
  rewrite E in Ha, Hmn, Hmx, Hq. rewrite sum_fold_right in Ha.
  repeat split; assumption.
Qed.

Lemma summary_matches_reference_witness :
  exists r, runPerformanceTest [[ok_1ms; mkLatencyRecord (Q2Qc 5) true]] = Returned r /\
    minLatency r = JNum (ref_min [Q2Qc 1; Q2Qc 5]) /\ maxLatency r = JNum (ref_max [Q2Qc 1; Q2Qc 5]) /\
    averageLatency r = JNum (ref_avg [Q2Qc 1; Q2Qc 5]) /\ p95Latency r = JNum (ref_p95 [Q2Qc 1; Q2Qc 5]).
Proof.
  apply summary_matches_reference.
  - repeat constructor. vm_compute. discriminate.
  - apply Permutation_refl.
  - discriminate.
Defined.

(** C3 (amended). [startFrameworkServer] polls [sendHealthCheck] (success
    iff the status is in [200, 499]) at most [maxAttempts] = 250 times, the
    first check 1000 ms after the spawn and each later one 100 ms after the
    previous check settled. Unless the process emits ["error"] or exits with
    a non-zero code first, it resolves with the cold-start time at the first
    successful check, and when all 250 checks fail it sends SIGTERM to the
    process and rejects with a timeout error. An ["error"] or non-zero
    ["exit"] strictly before the polling settles rejects it with a
    start-failure error and sends no signal. Either rejection is a thrown
    exception for [testFramework]: it never returns [false]. *)
Theorem readiness_poll :
  (forall hc ex, (forall i, (i < maxAttempts)%nat -> success (hc i) = false) ->
     (forall t x, ex = Some (t, x) -> rejects_start x = true ->
        Qcleb (check_start hc maxAttempts) t = true) ->
     Startup.startFrameworkServer hc ex = Rejected EStartTimeout) /\
  (forall hc ex j, (j < maxAttempts)%nat ->
     (forall i, (i < j)%nat -> success (hc i) = false) -> success (hc j) = true ->
     (forall t x, ex = Some (t, x) -> rejects_start x = true ->
        Qcleb (check_start hc j + latency (hc j)) t = true) ->
     Startup.startFrameworkServer hc ex = Fulfilled (check_start hc j + latency (hc j))) /\
  (forall hc t x, (forall i, (i < maxAttempts)%nat -> success (hc i) = false) ->
     rejects_start x = true -> Qcltb t (check_start hc maxAttempts) = true ->
     Startup.startFrameworkServer hc (Some (t, x)) = Rejected EStartFailed) /\
  (forall hc t x j, (j < maxAttempts)%nat ->
     (forall i, (i < j)%nat -> success (hc i) = false) -> success (hc j) = true ->
     rejects_start x = true -> Qcltb t (check_start hc j + latency (hc j)) = true ->
     Startup.startFrameworkServer hc (Some (t, x)) = Rejected EStartFailed) /\
  (forall cfg e st, (forall i, (i < maxAttempts)%nat -> success (env_hc e i) = false) ->
     (forall t x, env_exit e = Some (t, x) -> Qcleb (check_start (env_hc e) maxAttempts) t = true) ->
     exists st', Orchestrator.startFrameworkServer cfg e st = (inl EStartTimeout, st') /\
       In (Kill (env_pid e) SIGTERM) (log st')) /\
  (forall cfg e st t x, env_exit e = Some (t, x) -> rejects_start x = true ->
     Qcltb t (poll_end (env_hc e)) = true ->
     exists st', Orchestrator.startFrameworkServer cfg e st = (inl EStartFailed, st') /\
       log st' = log st ++ [Spawn (name cfg) (env_pid e)] /\
       is_alive (env_pid e) (os st') = false).
Proof.
  assert (Pall : forall hc, (forall i, (i < maxAttempts)%nat -> success (hc i) = false) ->
            poll hc = Rejected EStartTimeout /\ poll_end hc = check_start hc maxAttempts).
  { intros hc H. assert (E : poll hc = Rejected EStartTimeout).
    { apply checkServerReady_all_fail. intros i Hi. apply H. lia. }
    split; [exact E|]. unfold poll_end. rewrite E. reflexivity. }
  assert (Pok : forall hc j, (j < maxAttempts)%nat ->
            (forall i, (i < j)%nat -> success (hc i) = false) -> success (hc j) = true ->
            poll hc = Fulfilled (check_start hc j + latency (hc j)) /\
            poll_end hc = check_start hc j + latency (hc j)).
  { intros hc j Hj Hf Hs.
    assert (E : poll hc = Fulfilled (check_start hc j + latency (hc j))).
    { apply (checkServerReady_first_success _ 0 j hc); auto.
      - lia.
      - unfold maxAttempts in *. lia.
      - intros i Hi. apply Hf. lia. }
    split; [exact E|]. unfold poll_end. rewrite E. reflexivity. }
  assert (Hlate : forall hc ex T v, poll hc = v -> poll_end hc = T ->
            (forall t x, ex = Some (t, x) -> rejects_start x = true -> Qcleb T t = true) ->
            Startup.startFrameworkServer hc ex = v).
  { intros hc ex T v Ep ET H. unfold Startup.startFrameworkServer.
    destruct ex as [[t x]|]; [|exact Ep].
    rewrite ET. destruct (rejects_start x) eqn:Ex; [|exact Ep].
    unfold Qcltb. rewrite (H t x eq_refl Ex). exact Ep. }
  assert (Hearly : forall hc t x, rejects_start x = true -> Qcltb t (poll_end hc) = true ->
            Startup.startFrameworkServer hc (Some (t, x)) = Rejected EStartFailed).
  { intros hc t x Hx Ht. unfold Startup.startFrameworkServer. rewrite Hx, Ht. reflexivity. }
  assert (Halive : forall e st, is_alive (env_pid e) (os st ++ [mkOsProc (env_pid e)
                     (env_exits_on_term e) (env_matches_cleanup e)]) = true).
  { intros e st. unfold is_alive. rewrite existsb_app. simpl. rewrite Nat.eqb_refl, orb_true_r.
    reflexivity. }
  split; [|split; [|split; [|split; [|split]]]].
  - intros hc ex H Hx. destruct (Pall hc H) as [E1 E2]. exact (Hlate hc ex _ _ E1 E2 Hx).
  - intros hc ex j Hj Hf Hs Hx. destruct (Pok hc j Hj Hf Hs) as [E1 E2].
    exact (Hlate hc ex _ _ E1 E2 Hx).
  - intros hc t x H Hx Ht. destruct (Pall hc H) as [_ E2]. apply Hearly; [exact Hx|].
    rewrite E2. exact Ht.
  - intros hc t x j Hj Hf Hs Hx Ht. destruct (Pok hc j Hj Hf Hs) as [_ E2].
    apply Hearly; [exact Hx|]. rewrite E2. exact Ht.
  - intros cfg e st H Hx. destruct (Pall _ H) as [E1 E2].
    assert (Hs : Startup.startFrameworkServer (env_hc e) (env_exit e) = Rejected EStartTimeout).
    { apply (Hlate _ _ _ _ E1 E2). intros t x Ee _. exact (Hx t x Ee). }
    assert (He : exits_during_poll (env_hc e) (env_exit e) = false).
    { unfold exits_during_poll. destruct (env_exit e) as [[t x]|] eqn:Ee; [|reflexivity].
      rewrite E2. unfold Qcltb. rewrite (Hx t x eq_refl). reflexivity. }
    unfold Orchestrator.startFrameworkServer. cbv zeta. rewrite He, Hs.
    cbv [bind spawn set_proc modify ret kill signal_pid get_proc gets throw exit_proc].
    cbn [os log serverProcesses pid]. rewrite Halive. cbn beta iota.
    destruct (map_get (name cfg) _) as [q|]; [destruct (pid q =? env_pid e)%nat|];
      destruct (env_exit e); cbn beta iota;
      eexists; (split; [reflexivity|]); cbn [log]; apply in_or_app; right; left; reflexivity.
  - intros cfg e st t x Ee Hx Ht.
    assert (He : exits_during_poll (env_hc e) (env_exit e) = true).
    { unfold exits_during_poll. rewrite Ee. exact Ht. }
    unfold Orchestrator.startFrameworkServer. cbv zeta. rewrite He, Ee, (Hearly _ _ _ Hx Ht).
    cbv [bind spawn set_proc modify ret exit_proc throw]. cbn [os log serverProcesses].
    eexists. split; [reflexivity|]. split; [reflexivity|].
    apply is_alive_exit.
Qed.

Lemma readiness_poll_witness :
  Startup.startFrameworkServer (env_hc env_never_listening) None = Rejected EStartTimeout /\
  Startup.startFrameworkServer (env_hc (env_slow_start [] "hono"%string 0)) None =
    Fulfilled (check_start (env_hc (env_slow_start [] "hono"%string 0)) 3%nat +
               latency (env_hc (env_slow_start [] "hono"%string 0) 3%nat)) /\
  Startup.startFrameworkServer (env_hc env_never_listening) (Some (Q2Qc 200, SpawnError)) =
    Rejected EStartFailed /\
  Startup.startFrameworkServer (env_hc env_port_in_use) (Some (Q2Qc 200, ExitCode 1)) =
    Rejected EStartFailed /\
  (exists st', Orchestrator.startFrameworkServer hono env_never_listening init = (inl EStartTimeout, st') /\
     In (Kill 42 SIGTERM) (log st')) /\
  (exists st', Orchestrator.startFrameworkServer hono env_port_in_use init = (inl EStartFailed, st') /\
     log st' = [Spawn "hono" 42] /\ is_alive 42 (os st') = false).
Proof.
  split; [|split; [|split; [|split; [|split]]]].
  - apply (proj1 readiness_poll); [intros i _; reflexivity|intros t x H; discriminate].
  - apply (proj1 (proj2 readiness_poll) _ _ 3%nat).
    + unfold maxAttempts. lia.
    + intros i Hi. destruct i as [|[|[|i]]]; [reflexivity|reflexivity|reflexivity|lia].
    + reflexivity.
    + intros t x H. discriminate.
  - apply (proj1 (proj2 (proj2 readiness_poll))).
    + intros i _. reflexivity.
    + reflexivity.
    + vm_compute. reflexivity.
  - apply (proj1 (proj2 (proj2 (proj2 readiness_poll))) _ _ _ 0%nat).
    + unfold maxAttempts. lia.
    + intros i Hi. lia.
    + reflexivity.
    + reflexivity.
    + vm_compute. reflexivity.
  - apply (proj1 (proj2 (proj2 (proj2 (proj2 readiness_poll)))));
      [intros i _; reflexivity|intros t x H; discriminate].
  - exact (proj2 (proj2 (proj2 (proj2 (proj2 readiness_poll)))) hono env_port_in_use init
             (Q2Qc 200) (ExitCode 1) eq_refl eq_refl (eq_refl true)).
Defined.

(** C3 (counterexample). On a target that never listens the readiness
    wait does not return [false]: it rejects with the timeout error. *)
Lemma never_listening_rejects :
  fst (Orchestrator.startFrameworkServer hono env_never_listening init) = inl EStartTimeout.
Proof. vm_compute. reflexivity. Qed.

(** C4 (amended). After [runPerformanceTest] returns [r], whose
    [totalRequests] is the number of SUCCESSFUL requests, the attempt of
    [testFramework] yields a record iff [r.totalRequests >= 10] and
    [r.errorRate <= 50]; [BatchFrameworkTester.testFramework] reports iff in
    addition its health check succeeded. *)
Theorem validity_gates cfg cs e st r :
  runPerformanceTest (env_batches e) = Returned r ->
  r_totalRequests r = successRequests (fold_batches (env_batches e)) /\
  ((exists m st', run_and_gate cfg cs e st = (inr m, st')) <->
   (10 <= r_totalRequests r)%nat /\ errorRate r <= Q2Qc 50) /\
  (Batch.testFramework cfg e <> None <->
   success (env_manual_hc e) = true /\ (10 <= r_totalRequests r)%nat /\ errorRate r <= Q2Qc 50).
Proof.
  intro Hr. destruct (runPerformanceTest_returned _ _ Hr) as (_ & Ht & _).
  split; [exact Ht|]. split; split.
  - intros (m & st' & H). apply run_and_gate_ok in H as (r' & Hr' & _ & H1 & H2).
    rewrite Hr in Hr'. injection Hr' as <-. auto.
  - intros [H1 H2]. unfold run_and_gate, bind, emit, modify. cbn beta iota. rewrite Hr.
    apply Nat.ltb_ge in H1. rewrite H1, (Qcltb_le _ _ H2). eexists _, _. reflexivity.
  - intro H. destruct (Batch.testFramework cfg e) as [m|] eqn:E; [|contradiction].
    apply batch_testFramework_ok in E as (r' & Hr' & _ & H1 & H2 & H3).
    rewrite Hr in Hr'. injection Hr' as <-. auto.
  - intros (H0 & H1 & H2). unfold Batch.testFramework. rewrite H0, Hr. simpl.
    apply Nat.ltb_ge in H1. rewrite H1, (Qcltb_le _ _ H2). discriminate.
Qed.

Lemma validity_gates_witness :
  runPerformanceTest (env_batches (env_healthy [repeat ok_1ms 20] "hono"%string 1)) =
    runPerformanceTest [repeat ok_1ms 20] /\
  match runPerformanceTest [repeat ok_1ms 20] with
  | Returned r =>
      (10 <= r_totalRequests r)%nat /\ errorRate r <= Q2Qc 50 ->
      exists m st', run_and_gate hono 0 (env_healthy [repeat ok_1ms 20] "hono"%string 1) init = (inr m, st')
  | NoSuccessfulRequests => False
  end.
Proof.
  split; [reflexivity|].
  destruct (runPerformanceTest [repeat ok_1ms 20]) as [|r] eqn:E; [vm_compute in E; discriminate|].
  exact (proj2 (proj1 (proj2 (validity_gates hono 0 (env_healthy [repeat ok_1ms 20] "hono"%string 1) init r E)))).
Defined.

(** C4 (counterexample). A run of 10 successes and 10 failures (20
    requests, error rate exactly 50%) is reported; so is a run of exactly
    10 successful requests (10 requests, not more than 10); a run of 9
    successes and 8 failures (17 requests, error rate 8/17 < 50%) is
    discarded. *)
Lemma gate_boundaries :
  match run_and_gate hono 0 (env_healthy [repeat ok_1ms 10; repeat failed_1ms 10] "hono"%string 1) init with
  | (inr m, _) => totalRequests (fold_batches [repeat ok_1ms 10; repeat failed_1ms 10]) = 20%nat /\
                  Qcleb (Q2Qc 50) (m_errorRate m) = true
  | _ => False
  end /\
  match run_and_gate hono 0 (env_healthy [repeat ok_1ms 10] "hono"%string 1) init with
  | (inr _, _) => totalRequests (fold_batches [repeat ok_1ms 10]) = 10%nat
  | _ => False
  end /\
  totalRequests (fold_batches [repeat ok_1ms 9; repeat failed_1ms 8]) = 17%nat /\
  Qcltb (errorRate_of [repeat ok_1ms 9; repeat failed_1ms 8]) (Q2Qc 50) = true /\
  fst (run_and_gate hono 0 (env_healthy [repeat ok_1ms 9; repeat failed_1ms 8] "hono"%string 1) init)
    = inl ETooFewRequests.
Proof. vm_compute. repeat split; reflexivity. Qed.

(** C5 (code bug). [testAllFrameworks(10, true)] (the batch runner's
    [--manual]) passes [true] as [maxRetries] and leaves [manualStart] at
    [false]: the framework is spawned and its cold start measured (1005 ms
    here, not 0). With [false] as second argument no attempt is made at all. *)
Theorem manual_flag_misrouted :
  match testAllFrameworks [hono] all_available (env_healthy [repeat ok_1ms 20]) 10 true init with
  | (inr [m], st) => nth_error (log st) 0 = Some (Spawn "hono" 42) /\
                     Qcleb (coldStartTime m) 0 = false
  | _ => False
  end /\
  fst (testAllFrameworks [hono] all_available (env_healthy [repeat ok_1ms 20]) 10 false init) = inr [].
Proof. vm_compute. repeat split; reflexivity. Qed.

(** C6. [sendRequest] and [sendHealthCheck] always resolve with a record
    and never reject. After response and body events each within the idle
    timeout (2000 ms for health checks, 5000 ms for load requests), a socket
    error at [t] gives [{t - start, false}], and an idle period longer than
    the timeout (a late event or none at all) gives [{elapsed up to the
    timeout, false}]. *)
Theorem driver_never_rejects k ep port startTime :
  (forall evs, exists r, send k ep port startTime evs = Fulfilled r) /\
  (forall pre t rest, open_prefix k startTime pre = true ->
     Qcltb (last_time startTime pre + request_timeout k) t = false ->
     send k ep port startTime (pre ++ (t, EvError) :: rest) =
       Fulfilled (mkLatencyRecord (t - startTime) false)) /\
  (forall pre t ev rest, open_prefix k startTime pre = true ->
     Qcltb (last_time startTime pre + request_timeout k) t = true ->
     send k ep port startTime (pre ++ (t, ev) :: rest) =
       Fulfilled (mkLatencyRecord (last_time startTime pre + request_timeout k - startTime) false)) /\
  (forall pre, open_prefix k startTime pre = true ->
     send k ep port startTime pre =
       Fulfilled (mkLatencyRecord (last_time startTime pre + request_timeout k - startTime) false)) /\
  request_timeout HealthCheckRequest = Q2Qc 2000 /\ request_timeout LoadTestRequest = Q2Qc 5000.
Proof.
  repeat split.
  - intro evs. rewrite send_settle. apply settle_fulfilled.
  - intros pre t rest H Ht. rewrite send_settle, settle_prefix by exact H. simpl. rewrite Ht.
    reflexivity.
  - intros pre t ev rest H Ht. rewrite send_settle, settle_prefix by exact H. simpl. rewrite Ht.
    reflexivity.
  - intros pre H. rewrite send_settle.
    pose proof (settle_prefix k startTime startTime None pre [] H) as E.
    rewrite app_nil_r in E. rewrite E. reflexivity.
Qed.

Lemma driver_never_rejects_witness :
  open_prefix LoadTestRequest 0 [(Q2Qc 10, EvResponse 200)] = true /\
  Qcltb (last_time 0 [(Q2Qc 10, EvResponse 200)] + request_timeout LoadTestRequest) (Q2Qc 20) = false /\
  send LoadTestRequest techempower_json 3001 0 ([(Q2Qc 10, EvResponse 200)] ++ [(Q2Qc 20, EvError)]) =
    Fulfilled (mkLatencyRecord (Q2Qc 20 - 0) false).
Proof.
  assert (H1 : open_prefix LoadTestRequest 0 [(Q2Qc 10, EvResponse 200)] = true) by reflexivity.
  assert (H2 : Qcltb (last_time 0 [(Q2Qc 10, EvResponse 200)] + request_timeout LoadTestRequest)
                 (Q2Qc 20) = false) by reflexivity.
  split; [exact H1|]. split; [exact H2|].
  exact (proj1 (proj2 (driver_never_rejects LoadTestRequest techempower_json 3001 0)) _ _ [] H1 H2).
Defined.

(** C7 (amended). For a completed response (headers and body within the idle
    timeout, then ["end"]) the record's [success] is [accepts k status]: the
    status in [200, 499] for [sendHealthCheck], in [200, 299] for
    [sendRequest]. [BatchFrameworkTester.healthCheck] goes through its
    [sendRequest], so it needs a strict 2xx. A request that errors, or whose
    socket stays idle past the timeout (a late event or none at all), has
    [success = false] whatever status its headers carried. *)
Theorem success_flag_by_kind :
  (forall st, accepts HealthCheckRequest st = true <-> (200 <= st <= 499)%Z) /\
  (forall st, accepts LoadTestRequest st = true <-> (200 <= st <= 299)%Z) /\
  (forall k ep port start pre t rest st,
     open_prefix k start pre = true -> last_status None pre = Some st ->
     Qcltb (last_time start pre + request_timeout k) t = false ->
     send k ep port start (pre ++ (t, EvEnd) :: rest) =
       Fulfilled (mkLatencyRecord (t - start) (accepts k st))) /\
  (forall ep eps port start pre t rest st,
     open_prefix LoadTestRequest start pre = true -> last_status None pre = Some st ->
     Qcltb (last_time start pre + request_timeout LoadTestRequest) t = false ->
     batch_healthCheck (ep :: eps) port start (pre ++ (t, EvEnd) :: rest) =
       accepts LoadTestRequest st) /\
  (forall k ep port start pre t rest,
     open_prefix k start pre = true ->
     Qcltb (last_time start pre + request_timeout k) t = false ->
     exists r, send k ep port start (pre ++ (t, EvError) :: rest) = Fulfilled r /\
       success r = false) /\
  (forall k ep port start pre t ev rest,
     open_prefix k start pre = true ->
     Qcltb (last_time start pre + request_timeout k) t = true ->
     exists r, send k ep port start (pre ++ (t, ev) :: rest) = Fulfilled r /\
       success r = false) /\
  (forall k ep port start pre,
     open_prefix k start pre = true ->
     exists r, send k ep port start pre = Fulfilled r /\ success r = false).
Proof.
  assert (Hend : forall k start pre t rest st,
     open_prefix k start pre = true -> last_status None pre = Some st ->
     Qcltb (last_time start pre + request_timeout k) t = false ->
     settle k start start None (pre ++ (t, EvEnd) :: rest) =
       Fulfilled (mkLatencyRecord (t - start) (accepts k st))).
  { intros k start pre t rest st H Hs Ht. rewrite settle_prefix by exact H. simpl.
    rewrite Ht, Hs. reflexivity. }
  split; [|split; [|split; [|split; [|split; [|split]]]]].
  - intro st. unfold accepts. rewrite andb_true_iff, Z.leb_le, Z.ltb_lt. lia.
  - intro st. unfold accepts. rewrite andb_true_iff, Z.leb_le, Z.ltb_lt. lia.
  - intros k ep port start pre t rest st H Hs Ht. rewrite send_settle. apply Hend; assumption.
  - intros ep eps port start pre t rest st H Hs Ht. unfold batch_healthCheck, batch_sendRequest.
    rewrite (Hend _ _ _ _ _ _ H Hs Ht). reflexivity.
  - intros k ep port start pre t rest H Ht. rewrite send_settle, settle_prefix by exact H.
    simpl. rewrite Ht. eexists. split; reflexivity.
  - intros k ep port start pre t ev rest H Ht. rewrite send_settle, settle_prefix by exact H.
    simpl. rewrite Ht. eexists. split; reflexivity.
  - intros k ep port start pre H. rewrite send_settle.
    pose proof (settle_prefix k start start None pre [] H) as E.
    rewrite app_nil_r in E. rewrite E. eexists. split; reflexivity.
Qed.

Lemma success_flag_by_kind_witness :
  open_prefix HealthCheckRequest 0 [(Q2Qc 1, EvResponse 404)] = true /\
  last_status None [(Q2Qc 1, EvResponse 404)] = Some 404%Z /\
  Qcltb (last_time 0 [(Q2Qc 1, EvResponse 404)] + request_timeout HealthCheckRequest) (Q2Qc 2) = false /\
  send HealthCheckRequest techempower_json 3001 0 ([(Q2Qc 1, EvResponse 404)] ++ [(Q2Qc 2, EvEnd)]) =
    Fulfilled (mkLatencyRecord (Q2Qc 2 - 0) (accepts HealthCheckRequest 404)) /\
  open_prefix LoadTestRequest 0 [(Q2Qc 10, EvResponse 200)] = true /\
  Qcltb (last_time 0 [(Q2Qc 10, EvResponse 200)] + request_timeout LoadTestRequest) (Q2Qc 20) = false /\
  (exists r, send LoadTestRequest techempower_json 3001 0
               ([(Q2Qc 10, EvResponse 200)] ++ [(Q2Qc 20, EvError)]) = Fulfilled r /\
             success r = false).
Proof.
  assert (H1 : open_prefix HealthCheckRequest 0 [(Q2Qc 1, EvResponse 404)] = true) by reflexivity.
  assert (H2 : last_status None [(Q2Qc 1, EvResponse 404)] = Some 404%Z) by reflexivity.
  assert (H3 : Qcltb (last_time 0 [(Q2Qc 1, EvResponse 404)] + request_timeout HealthCheckRequest)
                 (Q2Qc 2) = false) by reflexivity.
  split; [exact H1|]. split; [exact H2|]. split; [exact H3|].
  split; [exact (proj1 (proj2 (proj2 success_flag_by_kind)) _ techempower_json 3001%Z _ _ _ [] _ H1 H2 H3)|].
  assert (H4 : open_prefix LoadTestRequest 0 [(Q2Qc 10, EvResponse 200)] = true) by reflexivity.
  assert (H5 : Qcltb (last_time 0 [(Q2Qc 10, EvResponse 200)] + request_timeout LoadTestRequest)
                 (Q2Qc 20) = false) by reflexivity.
  split; [exact H4|]. split; [exact H5|].
  exact (proj1 (proj2 (proj2 (proj2 (proj2 success_flag_by_kind)))) _ techempower_json 3001%Z _ _ _ [] H4 H5).
Defined.

(** C7 (counterexample). The batch tester's health check rejects a 404,
    a status in [200, 499]; and a load request whose 200 response then stalls
    past the 5000 ms timeout records [success = false] with a 2xx status. *)
Lemma health_404_and_stalled_200 :
  batch_healthCheck [techempower_json] 3001 0 [(Q2Qc 1, EvResponse 404); (Q2Qc 2, EvEnd)] = false /\
  (200 <= 404 <= 499)%Z /\
  match send LoadTestRequest techempower_json 3001 0
          [(Q2Qc 10, EvResponse 200); (Q2Qc 6000, EvEnd)] with
  | Fulfilled r => success r = false
  | _ => False
  end.
Proof. split; [reflexivity|]. split; [lia|]. vm_compute. reflexivity. Qed.

(** C9. [stop] on a handle already killed, or whose process is gone, changes
    nothing and sends nothing; [stopAllServers] never throws, and a second
    call right after the first only sleeps: same map (empty), same processes,
    no signal. *)
Theorem stop_idempotent st :
  (forall nm p, killed p = true -> stop_one (nm, p) st = (inr tt, st)) /\
  (forall nm p, is_alive (pid p) (os st) = false -> stop_one (nm, p) st = (inr tt, st)) /\
  (exists st1, stopAllServers st = (inr tt, st1) /\ serverProcesses st1 = [] /\
     stopAllServers st1 = (inr tt, mkState [] (os st1) (log st1 ++ [Sleep 2000]))).
Proof.
  split; [|split].
  - intros nm p H. unfold stop_one. rewrite H. reflexivity.
  - intros nm p H. unfold stop_one. destruct (killed p); [reflexivity|].
    unfold kill, bind, signal_pid. rewrite H. unfold ret, get_proc, gets. cbn beta iota.
    destruct (match map_get nm (serverProcesses st) with Some q => killed q | None => false end);
      [reflexivity|]. rewrite H. reflexivity.
  - destruct (stopAllServers_after st) as (st1 & E & Hsp & Hm).
    exists st1. split; [exact E|]. split; [exact Hsp|]. apply stopAllServers_quiet; assumption.
Qed.

Lemma stop_idempotent_witness :
  killed (mkChild 42 true) = true /\ stop_one ("hono"%string, mkChild 42 true) init = (inr tt, init).
Proof.
  assert (H : killed (mkChild 42 true) = true) by reflexivity.
  split; [exact H|]. exact (proj1 (stop_idempotent init) _ _ H).
Defined.

End Claims.

(** ** Further properties of the tester *)

Module ExtraFacts.
Import Aggregate AggregateFacts Driver DriverFacts Startup StartupFacts
       Orchestrator OrchestratorFacts RecordFacts FullRun Report.

Lemma map_get_set nm p m : map_get nm (map_set nm p m) = Some p.
Proof.
  unfold map_get, map_set. destruct (existsb (fun kv => String.eqb (fst kv) nm) m) eqn:E.
  - induction m as [|[k v] m IH]; simpl in *; [discriminate|].
    destruct (String.eqb k nm) eqn:Ek; simpl.
    + rewrite String.eqb_refl. reflexivity.
    + rewrite Ek. apply IH, E.
  - induction m as [|[k v] m IH]; simpl in *.
    + rewrite String.eqb_refl. reflexivity.
    + apply orb_false_iff in E as [E1 E2]. rewrite E1. apply IH, E2.
Qed.

Lemma map_get_delete nm m : map_get nm (map_delete nm m) = None.
Proof.
  unfold map_get, map_delete. induction m as [|[k v] m IH]; simpl; [reflexivity|].
  destruct (String.eqb k nm) eqn:E; simpl; [exact IH|]. rewrite E. exact IH.
Qed.

Lemma is_alive_app_last p a b o : is_alive p (o ++ [mkOsProc p a b]) = true.
Proof. unfold is_alive. rewrite existsb_app. simpl. rewrite Nat.eqb_refl, orb_true_r. reflexivity. Qed.

Lemma is_alive_killed p o :
  is_alive p (filter (fun q => negb ((os_pid q =? p)%nat && true)) o) = false.
Proof.
  unfold is_alive. induction o as [|q o IH]; simpl; [reflexivity|].
  destruct (os_pid q =? p)%nat eqn:E; simpl; [exact IH|]. rewrite E. exact IH.
Qed.

(** The monad's effects on the process map. *)
Lemma nothrow_sleep ms : nothrow (sleep ms).
Proof. apply nothrow_modify. Qed.

Lemma nothrow_attempt {A} (m : M A) : nothrow (attempt m).
Proof. intro st. unfold attempt. destruct (m st). eexists _, _. reflexivity. Qed.

Lemma nothrow_delete_proc nm : nothrow (delete_proc nm).
Proof. apply nothrow_modify. Qed.

Lemma nothrow_on_failure cfg ms : nothrow (on_failure cfg ms).
Proof.
  unfold on_failure. destruct (negb ms); [|apply nothrow_ret].
  apply nothrow_bind; [apply nothrow_gets|]. intros [p|].
  - apply nothrow_bind; [|intros; apply nothrow_delete_proc].
    destruct (negb (killed p)); [apply nothrow_kill|apply nothrow_ret].
  - apply nothrow_bind; [apply nothrow_ret|intros; apply nothrow_delete_proc].
Qed.

Lemma nothrow_retry_loop fuel n mr cfg ms env : nothrow (retry_loop fuel n mr cfg ms env).
Proof.
  revert n. induction fuel as [|fuel IH]; intro n; simpl; [apply nothrow_ret|].
  destruct (Z.of_nat n <=? mr)%Z; [|apply nothrow_ret].
  apply nothrow_bind; [apply nothrow_attempt|]. intros [e|m]; [|apply nothrow_ret].
  apply nothrow_bind; [apply nothrow_on_failure|]. intros _.
  apply nothrow_bind; [|intros _; apply IH].
  destruct (Z.of_nat n <? mr)%Z; [apply nothrow_sleep|apply nothrow_ret].
Qed.

Lemma nothrow_testFramework configs available env fname a1 a2 a3 :
  nothrow (testFramework configs available env fname a1 a2 a3).
Proof.
  unfold testFramework. destruct (find _ configs) as [cfg|]; [|apply nothrow_ret].
  destruct (negb (available cfg)); [apply nothrow_ret|apply nothrow_retry_loop].
Qed.

(** No attempt at all. *)
Lemma testFramework_no_attempt configs available env fname a1 a2 a3 st :
  (match find (fun c => String.eqb (name c) fname) configs with
   | None => true
   | Some cfg => negb (available cfg) || (arg_number a2 2 <=? 0)%Z
   end) = true ->
  testFramework configs available env fname a1 a2 a3 st = (inr None, st).
Proof.
  unfold testFramework. destruct (find _ configs) as [cfg|]; [|reflexivity].
  destruct (negb (available cfg)); [reflexivity|]. simpl. intro H. apply Z.leb_le in H.
  replace (Z.to_nat (arg_number a2 2)) with 0%nat by lia. reflexivity.
Qed.


(** *** Manual mode touches no process *)

Definition quiet {A} (m : M A) : Prop :=
  forall st, exists r l, m st = (r, mkState (serverProcesses st) (os st) (log st ++ l)) /\
    forallb (fun ev => negb (proc_event ev)) l = true.

Lemma state_eta st : mkState (serverProcesses st) (os st) (log st ++ []) = st.
Proof. destruct st. simpl. rewrite app_nil_r. reflexivity. Qed.

Lemma quiet_ret {A} (a : A) : quiet (ret a).
Proof. intro st. exists (inr a), []. rewrite state_eta. split; reflexivity. Qed.

Lemma quiet_throw {A} e : quiet (@throw A e).
Proof. intro st. exists (inl e), []. rewrite state_eta. split; reflexivity. Qed.

Lemma quiet_emit ev : proc_event ev = false -> quiet (emit ev).
Proof. intros H st. exists (inr tt), [ev]. simpl. rewrite H. split; reflexivity. Qed.

Lemma quiet_bind {A B} (m : M A) (k : A -> M B) :
  quiet m -> (forall a, quiet (k a)) -> quiet (bind m k).
Proof.
  intros Hm Hk st. destruct (Hm st) as (r & l1 & E1 & F1). unfold bind. rewrite E1.
  destruct r as [e|a].
  - exists (inl e), l1. split; [reflexivity|exact F1].
  - destruct (Hk a (mkState (serverProcesses st) (os st) (log st ++ l1))) as (r2 & l2 & E2 & F2).
    rewrite E2. simpl. exists r2, (l1 ++ l2). rewrite app_assoc, forallb_app, F1, F2.
    split; reflexivity.
Qed.

Lemma quiet_attempt {A} (m : M A) : quiet m -> quiet (attempt m).
Proof.
  intros Hm st. destruct (Hm st) as (r & l & E & F). unfold attempt. rewrite E.
  exists (inr r), l. split; [reflexivity|exact F].
Qed.

Lemma quiet_run_and_gate cfg cs e : quiet (run_and_gate cfg cs e).
Proof.
  unfold run_and_gate. apply quiet_bind; [apply quiet_emit; reflexivity|]. intros _.
  apply quiet_bind; [apply quiet_emit; reflexivity|]. intros _.
  destruct (runPerformanceTest (env_batches e)) as [|r]; [apply quiet_throw|].
  destruct (r_totalRequests r <? 10)%nat; [apply quiet_throw|].
  destruct (Qcltb (Q2Qc 50) (errorRate r)); [apply quiet_throw|apply quiet_ret].
Qed.

Lemma quiet_retry_manual fuel n mr cfg env : quiet (retry_loop fuel n mr cfg true env).
Proof.
  revert n. induction fuel as [|fuel IH]; intro n; simpl; [apply quiet_ret|].
  destruct (Z.of_nat n <=? mr)%Z; [|apply quiet_ret].
  apply quiet_bind.
  - apply quiet_attempt. unfold attempt_body. simpl negb. cbn iota.
    apply quiet_bind; [|intros; apply quiet_run_and_gate].
    apply quiet_bind; [apply quiet_emit; reflexivity|]. intros _.
    apply quiet_bind; [apply quiet_emit; reflexivity|]. intros _.
    destruct (success (env_manual_hc (env n))); [apply quiet_ret|apply quiet_throw].
  - intros [e|m]; [|apply quiet_ret]. simpl on_failure.
    apply quiet_bind; [apply quiet_ret|]. intros _.
    apply quiet_bind; [|intros; apply IH].
    destruct (Z.of_nat n <? mr)%Z; [apply quiet_emit; reflexivity|apply quiet_ret].
Qed.

(** *** Manual mode when every health check fails *)

Lemma attempt_body_manual_fail cfg e st :
  success (env_manual_hc e) = false ->
  attempt_body cfg true e st =
  (inl EServiceUnavailable,
   mkState (serverProcesses st) (os st) (log st ++ [Sleep 2000; HealthCheck (port cfg)])).
Proof.
  intro H. unfold attempt_body, bind, sleep, emit, modify, throw. simpl. rewrite H.
  rewrite <- app_assoc. reflexivity.
Qed.

Lemma retry_manual_fail fuel n mr cfg env st :
  (forall k, success (env_manual_hc (env k)) = false) ->
  Z.of_nat (n + fuel) = (mr + 1)%Z ->
  retry_loop fuel n mr cfg true env st =
  (inr None, mkState (serverProcesses st) (os st)
               (log st ++ flat_map (manual_fail_events (port cfg) mr) (seq n fuel))).
Proof.
  intro Hf. revert n st. induction fuel as [|fuel IH]; intros n st Hn; simpl.
  - rewrite state_eta. reflexivity.
  - replace (Z.of_nat n <=? mr)%Z with true by (symmetry; apply Z.leb_le; lia).
    unfold bind at 1, attempt. rewrite (attempt_body_manual_fail _ _ _ (Hf n)).
    unfold on_failure, negb, bind at 1, ret at 1.
    unfold manual_fail_events at 1.
    destruct (Z.of_nat n <? mr)%Z.
    + unfold bind, sleep, emit, modify. rewrite IH by lia. simpl.
      rewrite <- !app_assoc. reflexivity.
    + unfold bind, ret. rewrite IH by lia. simpl.
      rewrite <- !app_assoc. reflexivity.
Qed.

(** *** Auto mode *)

Lemma on_failure_deletes cfg st st' :
  on_failure cfg false st = (inr tt, st') -> map_get (name cfg) (serverProcesses st') = None.
Proof.
  unfold on_failure. simpl negb. cbn iota. intro H.
  apply bind_inr in H as (cur & st1 & _ & H). apply bind_inr in H as (u & st2 & _ & H).
  unfold delete_proc, modify in H. injection H as <-. apply map_get_delete.
Qed.

Lemma retry_auto_fail fuel n mr cfg env st st' :
  (1 <= n)%nat -> (Z.of_nat n <= mr)%Z -> Z.of_nat (n + fuel) = (mr + 1)%Z ->
  retry_loop fuel n mr cfg false env st = (inr None, st') ->
  map_get (name cfg) (serverProcesses st') = None.
Proof.
  revert n st. induction fuel as [|fuel IH]; intros n st H1 H2 H3 H; [lia|].
  simpl in H. replace (Z.of_nat n <=? mr)%Z with true in H by (symmetry; apply Z.leb_le; lia).
  unfold bind at 1, attempt in H.
  destruct (attempt_body cfg false (env n) st) as [[e|m] st1].
  - apply bind_inr in H as (u & st2 & Hof & H). destruct u.
    pose proof (on_failure_deletes _ _ _ Hof) as Hd.
    apply bind_inr in H as (u' & st3 & Hs & H).
    assert (Hsp : serverProcesses st3 = serverProcesses st2).
    { destruct (Z.of_nat n <? mr)%Z; unfold sleep, emit, modify, ret in Hs;
        injection Hs as _ <-; reflexivity. }
    destruct fuel as [|fuel'].
    + simpl in H. unfold ret in H. injection H as <-. rewrite Hsp. exact Hd.
    + apply (IH (S n) st3); auto; lia.
  - unfold ret in H. discriminate.
Qed.

Lemma retry_loop_ok_st fuel n mr cfg ms env st m st' :
  retry_loop fuel n mr cfg ms env st = (inr (Some m), st') ->
  exists k st1, attempt_body cfg ms (env k) st1 = (inr m, st').
Proof.
  revert n st. induction fuel as [|fuel IH]; intros n st H; simpl in H; [discriminate|].
  destruct (Z.of_nat n <=? mr)%Z; [|discriminate].
  unfold bind at 1, attempt in H.
  destruct (attempt_body cfg ms (env n) st) as [[err|m0] st1] eqn:E.
  - apply bind_inr in H as (u & st2 & _ & H).
    apply bind_inr in H as (u' & st3 & _ & H). eapply IH. exact H.
  - unfold ret in H. injection H as -> <-. exists n, st. exact E.
Qed.

Lemma run_and_gate_state cfg cs e st r st' :
  run_and_gate cfg cs e st = (r, st') ->
  serverProcesses st' = serverProcesses st /\ os st' = os st.
Proof.
  unfold run_and_gate, bind, emit, modify. cbn beta iota.
  destruct (runPerformanceTest (env_batches e)) as [|r0];
    [|destruct (r_totalRequests r0 <? 10)%nat; [|destruct (Qcltb (Q2Qc 50) (errorRate r0))]];
    intro H; injection H as _ <-; split; reflexivity.
Qed.

Lemma spawn_eq cfg e st :
  spawn cfg e st =
  (inr (mkChild (env_pid e) false),
   mkState (map_set (name cfg) (mkChild (env_pid e) false) (serverProcesses st))
           (os st ++ [mkOsProc (env_pid e) (env_exits_on_term e) (env_matches_cleanup e)])
           (log st ++ [Spawn (name cfg) (env_pid e)])).
Proof. reflexivity. Qed.

Lemma maybe_exit_procs (b : bool) pid st r st' :
  (if b then exit_proc pid else ret tt) st = (r, st') ->
  serverProcesses st' = serverProcesses st /\ log st' = log st.
Proof. destruct b; intro H; injection H as _ <-; split; reflexivity. Qed.

(** A successful start: the promise resolved with the returned time and the
    fresh handle is registered, not killed. *)
Lemma startFrameworkServer_success cfg e st t st' :
  startFrameworkServer cfg e st = (inr t, st') ->
  Startup.startFrameworkServer (env_hc e) (env_exit e) = Fulfilled t /\
  map_get (name cfg) (serverProcesses st') = Some (mkChild (env_pid e) false).
Proof.
  unfold startFrameworkServer. cbv zeta. intro H.
  apply bind_inr in H as (p & s1 & Hp & H). rewrite spawn_eq in Hp. injection Hp as <- <-.
  apply bind_inr in H as (u & s2 & Hu & H). apply maybe_exit_procs in Hu as [Hu _].
  destruct (Startup.startFrameworkServer (env_hc e) (env_exit e)) as [|t'|err].
  - discriminate H.
  - apply bind_inr in H as (u' & s3 & Hl & H). apply maybe_exit_procs in Hl as [Hl _].
    unfold ret in H. injection H as <- <-. split; [reflexivity|].
    rewrite Hl, Hu. simpl. apply map_get_set.
  - destruct err; try discriminate H.
    apply bind_inr in H as (u' & s3 & _ & H). apply bind_inr in H as (u'' & s4 & _ & H).
    discriminate H.
Qed.

Lemma startFrameworkServer_ok cfg e st t st' :
  startFrameworkServer cfg e st = (inr t, st') ->
  map_get (name cfg) (serverProcesses st') = Some (mkChild (env_pid e) false).
Proof. intro H. exact (proj2 (startFrameworkServer_success _ _ _ _ _ H)). Qed.

Lemma attempt_body_auto_ok cfg e st m st' :
  attempt_body cfg false e st = (inr m, st') ->
  map_get (name cfg) (serverProcesses st') = Some (mkChild (env_pid e) false).
Proof.
  unfold attempt_body. simpl negb. cbn iota. intro H.
  apply bind_inr in H as (cs & st1 & H1 & H2).
  destruct (run_and_gate_state _ _ _ _ _ _ H2) as [E1 _]. rewrite E1.
  apply bind_inr in H1 as (ex & s1 & _ & H1). apply bind_inr in H1 as (u & s2 & _ & H1).
  apply bind_inr in H1 as (t & s3 & Hs & H1).
  apply bind_inr in H1 as (u' & s4 & Hsl & H1).
  unfold ret in H1. injection H1 as _ <-. unfold sleep, emit, modify in Hsl.
  injection Hsl as _ <-. simpl. apply (startFrameworkServer_ok _ _ _ _ _ Hs).
Qed.

(** *** [cleanupFramework], [stop_one], [runFullTest] *)

Lemma bind_step {A B} (m : M A) (k : A -> M B) st a st' :
  m st = (inr a, st') -> bind m k st = k a st'.
Proof. intro E. unfold bind. rewrite E. reflexivity. Qed.

(** [kill] on the registered live handle: SIGTERM is delivered and the
    stored handle becomes [killed]. *)
Lemma kill_live nm p sig st :
  map_get nm (serverProcesses st) = Some p ->
  is_alive (pid p) (os st) = true ->
  kill nm p sig st =
  (inr tt, mkState (map_set nm (mkChild (pid p) true) (serverProcesses st))
                   (filter (fun q => negb ((os_pid q =? pid p)%nat &&
                                           match sig with SIGKILL => true | SIGTERM => exits_on_term q end))
                           (os st))
                   (log st ++ [Kill (pid p) sig])).
Proof.
  intros Hg Ha. unfold kill.
  rewrite (bind_step _ _ st true
    (mkState (serverProcesses st)
       (filter (fun q => negb ((os_pid q =? pid p)%nat &&
                               match sig with SIGKILL => true | SIGTERM => exits_on_term q end)) (os st))
       (log st ++ [Kill (pid p) sig])))
    by (unfold signal_pid; rewrite Ha; reflexivity).
  unfold bind, get_proc, gets. cbn [serverProcesses]. rewrite Hg.
  rewrite Nat.eqb_refl. reflexivity.
Qed.

Lemma cleanup_live nm p st :
  map_get nm (serverProcesses st) = Some p -> killed p = false ->
  is_alive (pid p) (os st) = true ->
  exists st', cleanupFramework nm st = (inr tt, st') /\
    is_alive (pid p) (os st') = false /\
    map_get nm (serverProcesses st') = Some (mkChild (pid p) true).
Proof.
  intros Hg Hk Ha. unfold cleanupFramework.
  rewrite (bind_step _ _ st (Some p) st) by (unfold get_proc, gets; rewrite Hg; reflexivity).
  rewrite Hk. cbn [negb].
  rewrite (bind_step _ _ st tt _) by (apply kill_live; assumption).
  unfold bind at 1, gets. cbn [os serverProcesses].
  destruct (is_alive (pid p) (filter (fun q => negb ((os_pid q =? pid p)%nat && exits_on_term q)) (os st))) eqn:E2; cbv beta iota.
  - rewrite (bind_step _ _ _ tt _) by reflexivity.
    rewrite (bind_step _ _ _ true _) by (unfold signal_pid; cbn [os]; rewrite E2; reflexivity).
    unfold ret. eexists. split; [reflexivity|]. cbn [os serverProcesses]. split.
    + apply is_alive_killed.
    + apply map_get_set.
  - unfold ret. eexists. split; [reflexivity|]. cbn [os serverProcesses].
    split; [exact E2|apply map_get_set].
Qed.

Lemma stop_one_live nm p st :
  map_get nm (serverProcesses st) = Some p -> killed p = false ->
  is_alive (pid p) (os st) = true ->
  stop_one (nm, p) st =
  (inr tt, mkState (map_set nm (mkChild (pid p) true) (serverProcesses st))
                   (filter (fun q => negb ((os_pid q =? pid p)%nat && exits_on_term q)) (os st))
                   (log st ++ [Kill (pid p) SIGTERM])).
Proof.
  intros Hg Hk Ha. unfold stop_one. rewrite Hk.
  rewrite (bind_step _ _ st tt _) by (apply kill_live; assumption).
  unfold bind, get_proc, gets. cbn [serverProcesses]. rewrite map_get_set. reflexivity.
Qed.

Create HintDb extra_nothrow.
#[local] Hint Resolve nothrow_ret nothrow_bind nothrow_modify nothrow_gets nothrow_signal_pid
  nothrow_kill nothrow_sleep nothrow_delete_proc : extra_nothrow.

Lemma nothrow_cleanupFramework nm : nothrow (cleanupFramework nm).
Proof.
  unfold cleanupFramework. apply nothrow_bind; [apply nothrow_gets|]. intros [p|].
  - destruct (negb (killed p)).
    + apply nothrow_bind; [apply nothrow_kill|]. intros _.
      apply nothrow_bind; [apply nothrow_gets|]. intros [|]; eauto with extra_nothrow.
    + eauto with extra_nothrow.
  - eauto with extra_nothrow.
Qed.

Lemma testAll_loop_auto configs available env d todo st :
  exists st', testAll_loop configs available env d false todo st = (inr [], st').
Proof.
  revert st. induction todo as [|cfg todo IH]; intro st; [eexists; reflexivity|].
  cbn [testAll_loop].
  rewrite (bind_step _ _ st None st)
    by (apply testFramework_no_attempt;
        destruct (find _ configs); [rewrite orb_true_r|]; reflexivity).
  cbn [negb].
  destruct (nothrow_cleanupFramework (name cfg) st) as (u & st1 & E1).
  rewrite (bind_step _ _ st tt _)
    by (rewrite (bind_step _ _ _ u _ E1); reflexivity).
  destruct (IH (mkState (serverProcesses st1) (os st1) (log st1 ++ [Sleep 5000]))) as (st2 & E2).
  rewrite (bind_step _ _ _ [] _ E2). eexists. reflexivity.
Qed.

Lemma runFullTest_empty configs available env d st :
  exists st', runFullTest configs available env d st = (inr [], st') /\
              serverProcesses st' = [] /\
              forallb (fun q => negb (matches_cleanup q)) (os st') = true.
Proof.
  unfold runFullTest, testAllFrameworks.
  destruct (testAll_loop_auto configs available env d (filter available configs) st) as (st1 & E1).
  rewrite (bind_step _ _ st (inr []) st1) by (unfold attempt; rewrite E1; reflexivity).
  destruct (stopAllServers_after st1) as (st2 & E2 & H2).
  rewrite (bind_step _ _ st1 tt st2 E2). eexists. split; [reflexivity|]. exact H2.
Qed.

(** *** Counters and order independence of [runPerformanceTest] *)

Lemma fold_records l c :
  let c' := fold_left record_result l c in
  totalRequests c' = (totalRequests c + length l)%nat /\
  successRequests c' = (successRequests c + length (filter success l))%nat /\
  errorRequests c' = (errorRequests c + length (filter (fun r => negb (success r)) l))%nat /\
  latencies c' = latencies c ++ map latency (filter success l).
Proof.
  revert c. induction l as [|r l IH]; intro c; simpl.
  - rewrite app_nil_r. repeat split; lia.
  - destruct (IH (record_result c r)) as (H1 & H2 & H3 & H4).
    rewrite H1, H2, H3, H4. unfold record_result.
    destruct (success r); simpl; [rewrite <- app_assoc|]; repeat split; try lia; reflexivity.
Qed.

Lemma fold_batches_concat bs : fold_batches bs = fold_left record_result (concat bs) init_counters.
Proof.
  unfold fold_batches. generalize init_counters. induction bs as [|b bs IH]; intro c; simpl;
    [reflexivity|]. rewrite fold_left_app. apply IH.
Qed.

Lemma Permutation_filter' {A} (p : A -> bool) l l' :
  Permutation l l' -> Permutation (filter p l) (filter p l').
Proof.
  induction 1 as [|x l l' _ IH|x y l|l l' l'' _ IH1 _ IH2]; simpl.
  - constructor.
  - destruct (p x); [apply perm_skip|]; exact IH.
  - destruct (p x), (p y); try constructor; reflexivity.
  - eapply Permutation_trans; eassumption.
Qed.

Lemma runPerformanceTest_perm bs1 bs2 :
  Permutation (concat bs1) (concat bs2) -> runPerformanceTest bs1 = runPerformanceTest bs2.
Proof.
  intro Hp. unfold runPerformanceTest. rewrite !fold_batches_concat.
  destruct (fold_records (concat bs1) init_counters) as (A1 & B1 & C1 & D1).
  destruct (fold_records (concat bs2) init_counters) as (A2 & B2 & C2 & D2).
  set (c1 := fold_left record_result (concat bs1) init_counters) in *.
  set (c2 := fold_left record_result (concat bs2) init_counters) in *.
  assert (Hl : Permutation (latencies c1) (latencies c2)).
  { rewrite D1, D2. apply Permutation_map, Permutation_filter', Hp. }
  assert (Hs : sort_asc (latencies c1) = sort_asc (latencies c2)).
  { apply sorted_perm_unique; try apply sort_asc_sorted.
    rewrite <- !sort_asc_perm. exact Hl. }
  assert (Hn : length (latencies c1) = length (latencies c2)) by (apply Permutation_length, Hl).
  assert (Ht : totalRequests c1 = totalRequests c2) by (rewrite A1, A2; f_equal; apply Permutation_length, Hp).
  assert (Hsu : successRequests c1 = successRequests c2)
    by (rewrite B1, B2; f_equal; apply Permutation_length, Permutation_filter', Hp).
  assert (He : errorRequests c1 = errorRequests c2)
    by (rewrite C1, C2; f_equal; apply Permutation_length, Permutation_filter', Hp).
  unfold summarize. rewrite Hn, Hs, Ht, Hsu, He. reflexivity.
Qed.

(** *** Latency of one request *)

Lemma request_timeout_nonneg k : 0 <= request_timeout k.
Proof. destruct k; unfold Qcle; simpl; discriminate. Qed.

Lemma le_sub_nonneg a b : b <= a -> 0 <= a - b.
Proof. intro H. apply Qcle_minus_iff in H. exact H. Qed.

Lemma settle_nonneg k s last status evs r :
  s <= last -> Forall (fun e => s <= fst e) evs ->
  settle k s last status evs = Fulfilled r -> 0 <= latency r.
Proof.
  revert last status. induction evs as [|[t ev] evs IH]; intros last status Hl Hf H; simpl in H.
  - injection H as <-. simpl. apply le_sub_nonneg.
    rewrite <- (Qcplus_0_r s). apply Qcplus_le_compat; [exact Hl|apply request_timeout_nonneg].
  - inversion Hf as [|? ? Ht Hf']; subst. simpl in Ht.
    destruct (Qcltb (last + request_timeout k) t).
    + injection H as <-. simpl. apply le_sub_nonneg.
      rewrite <- (Qcplus_0_r s). apply Qcplus_le_compat; [exact Hl|apply request_timeout_nonneg].
    + destruct ev as [st| | |].
      * eapply IH; eassumption.
      * eapply IH; eassumption.
      * destruct status as [st|].
        -- injection H as <-. simpl. apply le_sub_nonneg, Ht.
        -- eapply IH; eassumption.
      * injection H as <-. simpl. apply le_sub_nonneg, Ht.
Qed.

(** *** Cold start *)


(** *** The batch tester's ranking *)

Section JsSort.
Context {A : Type} (gt0 : A -> A -> bool).

Lemma sort_insert_perm x l : Permutation (x :: l) (sort_insert gt0 x l).
Proof.
  induction l as [|y l IH]; simpl; [reflexivity|].
  destruct (gt0 x y); [|reflexivity]. rewrite perm_swap. apply perm_skip, IH.
Qed.

Lemma js_sort_perm l : Permutation l (js_sort gt0 l).
Proof.
  induction l as [|x l IH]; simpl; [reflexivity|].
  rewrite <- sort_insert_perm. apply perm_skip, IH.
Qed.

Lemma js_sort_id l :
  (forall x y, In x l -> In y l -> gt0 x y = false) -> js_sort gt0 l = l.
Proof.
  induction l as [|x l IH]; intro H; simpl; [reflexivity|].
  rewrite IH by (intros; apply H; right; assumption).
  destruct l as [|y l]; simpl; [reflexivity|]. rewrite H by (simpl; auto). reflexivity.
Qed.

Variables (P : A -> Prop) (R : A -> A -> Prop).
Hypothesis Hgt : forall x y, P x -> P y ->
  (gt0 x y = false -> R x y) /\ (gt0 x y = true -> R y x).

Lemma sort_insert_sorted x l :
  P x -> Forall P l -> Sorted R l -> Sorted R (sort_insert gt0 x l).
Proof.
  intros Hx Hl Hs. revert Hl. induction Hs as [|y l Hs IH Hhd]; intro Hl; simpl.
  - repeat constructor.
  - inversion Hl as [|? ? Hy Hl']; subst.
    destruct (gt0 x y) eqn:Exy.
    + constructor; [apply IH, Hl'|].
      destruct l as [|z l]; simpl; [constructor; apply (Hgt x y Hx Hy), Exy|].
      inversion Hhd; subst. destruct (gt0 x z); constructor; auto.
      apply (Hgt x y Hx Hy), Exy.
    + constructor; [constructor; auto|]. constructor. apply (Hgt x y Hx Hy), Exy.
Qed.

Lemma js_sort_sorted l : Forall P l -> Sorted R (js_sort gt0 l).
Proof.
  induction l as [|x l IH]; intro Hl; simpl; [constructor|].
  inversion Hl; subst. apply sort_insert_sorted; auto.
  apply (Permutation_Forall (js_sort_perm l)); assumption.
Qed.

End JsSort.

Lemma sub_pos_false a b : Qcltb 0 (a - b) = false -> a <= b.
Proof.
  intro H. apply Qcltb_false in H. apply Qcle_minus_iff in H.
  apply Qcle_minus_iff. replace (b + - a) with (0 + - (a - b)) by ring. exact H.
Qed.

Lemma sub_pos_true a b : Qcltb 0 (a - b) = true -> b <= a.
Proof.
  intro H. apply Qcltb_true in H. apply Qclt_le_weak. apply Qclt_minus_iff. exact H.
Qed.

Definition lat_le (a b : PerformanceMetrics) : Prop :=
  exists qa qb, m_averageLatency a = JNum qa /\ m_averageLatency b = JNum qb /\ qa <= qb.

Lemma by_latency_total x y :
  (exists q, m_averageLatency x = JNum q) -> (exists q, m_averageLatency y = JNum q) ->
  (by_latency x y = false -> lat_le x y) /\ (by_latency x y = true -> lat_le y x).
Proof.
  intros [qx Hx] [qy Hy]. unfold by_latency, lat_le. rewrite Hx, Hy. cbn [js_sub_pos].
  split; intro H.
  - exists qx, qy. split; [reflexivity|]. split; [reflexivity|]. apply sub_pos_false, H.
  - exists qy, qx. split; [reflexivity|]. split; [reflexivity|]. apply sub_pos_true, H.
Qed.

Lemma batch_testFramework_some cfg e m :
  Batch.testFramework cfg e = Some m ->
  framework m = displayName cfg /\ coldStartTime m = 0 /\ exists q, m_averageLatency m = JNum q.
Proof.
  unfold Batch.testFramework. destruct (negb (success (env_manual_hc e))); [discriminate|].
  destruct (runPerformanceTest (env_batches e)) as [|r] eqn:Er; [discriminate|].
  destruct (r_totalRequests r <? 10)%nat; [discriminate|].
  destruct (Qcltb (Q2Qc 50) (errorRate r)); [discriminate|].
  intro H. injection H as <-. simpl. split; [reflexivity|]. split; [reflexivity|].
  unfold runPerformanceTest in Er.
  destruct (summarize_returned _ _ (fold_batches_inv _) Er) as (_ & _ & Ha & _).
  rewrite Ha. eexists. reflexivity.
Qed.

Lemma batch_loop_some env configs :
  Forall (fun m => coldStartTime m = 0 /\ exists q, m_averageLatency m = JNum q)
         (batch_loop env configs).
Proof.
  induction configs as [|cfg configs IH]; simpl; [constructor|].
  destruct (Batch.testFramework cfg (env (name cfg))) as [m|] eqn:E; [|exact IH].
  constructor; [|exact IH]. apply batch_testFramework_some in E as (_ & ? & ?). auto.
Qed.

(** *** What a successful auto-mode attempt reports *)

Lemma run_and_gate_metrics cfg cs e st m st' :
  run_and_gate cfg cs e st = (inr m, st') ->
  framework m = displayName cfg /\ coldStartTime m = cs.
Proof.
  unfold run_and_gate, bind, emit, modify. cbn beta iota.
  destruct (runPerformanceTest (env_batches e)) as [|r0];
    [|destruct (r_totalRequests r0 <? 10)%nat; [|destruct (Qcltb (Q2Qc 50) (errorRate r0))]];
    intro H; try discriminate. injection H as <- _. split; reflexivity.
Qed.

Lemma startFrameworkServer_value cfg e st t st' :
  startFrameworkServer cfg e st = (inr t, st') ->
  Startup.startFrameworkServer (env_hc e) (env_exit e) = Fulfilled t.
Proof. intro H. exact (proj1 (startFrameworkServer_success _ _ _ _ _ H)). Qed.

Lemma attempt_body_auto_metrics cfg e st m st' :
  attempt_body cfg false e st = (inr m, st') ->
  framework m = displayName cfg /\
  Startup.startFrameworkServer (env_hc e) (env_exit e) = Fulfilled (coldStartTime m).
Proof.
  unfold attempt_body. simpl negb. cbn iota. intro H.
  apply bind_inr in H as (cs & st1 & H1 & H2).
  destruct (run_and_gate_metrics _ _ _ _ _ _ H2) as [E1 E2]. rewrite E2.
  split; [exact E1|].
  apply bind_inr in H1 as (ex & s1 & _ & H1). apply bind_inr in H1 as (u & s2 & _ & H1).
  apply bind_inr in H1 as (t & s3 & Hs & H1).
  apply bind_inr in H1 as (u' & s4 & _ & H1).
  unfold ret in H1. injection H1 as <- _. apply (startFrameworkServer_value _ _ _ _ _ Hs).
Qed.

End ExtraFacts.

Module Extras.
Import Aggregate AggregateFacts Driver DriverFacts Startup StartupFacts Orchestrator
       OrchestratorFacts RecordFacts ClaimFacts FullRun Report Samples ExtraFacts.

(** X1. [testFramework] never rejects: whatever the configuration, the
    arguments and the behaviour of the servers, it resolves, with a record or
    with [null]. *)
Theorem testFramework_resolves configs available env fname testDuration maxRetries manualStart st :
  exists r st',
    testFramework configs available env fname testDuration maxRetries manualStart st = (inr r, st').
Proof. apply nothrow_testFramework. Qed.

(** X3. Called with a truthy [manualStart], [testFramework] spawns and
    signals no process: the process map and the processes are unchanged,
    and the only effects are waits, health checks, warm-ups and load runs. *)
Theorem testFramework_manual_touches_no_process configs available env fname testDuration maxRetries manualStart st :
  arg_truthy manualStart false = true ->
  exists r l,
    testFramework configs available env fname testDuration maxRetries manualStart st =
      (r, mkState (serverProcesses st) (os st) (log st ++ l)) /\
    forallb (fun ev => negb (proc_event ev)) l = true.
Proof.
  intro Hm. unfold testFramework.
  destruct (find _ configs) as [cfg|]; [|apply quiet_ret].
  destruct (negb (available cfg)); [apply quiet_ret|].
  rewrite Hm. apply quiet_retry_manual.
Qed.

Lemma testFramework_manual_touches_no_process_witness :
  arg_truthy (ABool true) false = true /\
  exists r l,
    testFramework [hono] all_available (env_healthy one_outlier) "hono"%string
      (ANum 10) AUndefined (ABool true) init =
      (r, mkState (serverProcesses init) (os init) (log init ++ l)) /\
    forallb (fun ev => negb (proc_event ev)) l = true.
Proof.
  split; [reflexivity|].
  apply testFramework_manual_touches_no_process. reflexivity.
Defined.

(** X4. In manual mode against a server whose health check always fails,
    [testFramework] makes exactly [maxRetries] attempts, each a 2 s wait and
    a health check followed by a back-off of [attempt * 2000] ms except after
    the last one, and resolves with [null]; the process state is unchanged. *)
Theorem testFramework_manual_unreachable configs available env fname testDuration maxRetries manualStart cfg st :
  find (fun c => String.eqb (name c) fname) configs = Some cfg ->
  available cfg = true ->
  arg_truthy manualStart false = true ->
  (forall k, success (env_manual_hc (env (name cfg) k)) = false) ->
  testFramework configs available env fname testDuration maxRetries manualStart st =
  (inr None, mkState (serverProcesses st) (os st)
     (log st ++ flat_map (manual_fail_events (port cfg) (arg_number maxRetries 2))
                         (seq 1 (Z.to_nat (arg_number maxRetries 2))))).
Proof.
  intros Hf Ha Hm Hk. unfold testFramework. rewrite Hf, Ha, Hm. cbn [negb].
  destruct (Z_lt_le_dec (arg_number maxRetries 2) 0) as [Hlt|Hle].
  - replace (Z.to_nat (arg_number maxRetries 2)) with 0%nat by lia.
    cbn [retry_loop seq flat_map]. unfold ret. rewrite state_eta. reflexivity.
  - apply retry_manual_fail; [exact Hk|]. rewrite Nat2Z.inj_add, Z2Nat.id by exact Hle. lia.
Qed.

Lemma testFramework_manual_unreachable_witness :
  find (fun c => String.eqb (name c) "hono"%string) [hono] = Some hono /\
  all_available hono = true /\
  arg_truthy (ABool true) false = true /\
  (forall k, success (env_manual_hc (env_unreachable (name hono) k)) = false) /\
  testFramework [hono] all_available env_unreachable "hono"%string
    (ANum 10) AUndefined (ABool true) init =
  (inr None, mkState (serverProcesses init) (os init)
     (log init ++ flat_map (manual_fail_events (port hono) (arg_number AUndefined 2))
                           (seq 1 (Z.to_nat (arg_number AUndefined 2))))).
Proof.
  split; [reflexivity|]. split; [reflexivity|]. split; [reflexivity|].
  split; [intro k; reflexivity|].
  apply testFramework_manual_unreachable; [reflexivity|reflexivity|reflexivity|].
  intro k. reflexivity.
Defined.

(** X5. In auto mode, when at least one attempt is made and [testFramework]
    resolves with [null], the framework has no entry left in the process
    map. *)
Theorem testFramework_auto_failure_forgets configs available env fname testDuration maxRetries manualStart cfg st st' :
  find (fun c => String.eqb (name c) fname) configs = Some cfg ->
  available cfg = true ->
  arg_truthy manualStart false = false ->
  (1 <= arg_number maxRetries 2)%Z ->
  testFramework configs available env fname testDuration maxRetries manualStart st = (inr None, st') ->
  map_get (name cfg) (serverProcesses st') = None.
Proof.
  intros Hf Ha Hm Hmr. unfold testFramework. rewrite Hf, Ha, Hm. cbn [negb].
  apply retry_auto_fail; [lia|lia|]. rewrite Nat2Z.inj_add, Z2Nat.id by lia. lia.
Qed.

Lemma testFramework_auto_failure_forgets_witness :
  let run := testFramework [hono] all_available env_unreachable "hono"%string
               AUndefined AUndefined AUndefined init in
  find (fun c => String.eqb (name c) "hono"%string) [hono] = Some hono /\
  all_available hono = true /\
  arg_truthy AUndefined false = false /\
  (1 <= arg_number AUndefined 2)%Z /\
  run = (inr None, snd run) /\
  map_get (name hono) (serverProcesses (snd run)) = None.
Proof.
  intro run. split; [reflexivity|]. split; [reflexivity|]. split; [reflexivity|].
  split; [vm_compute; discriminate|].
  assert (Hrun : run = (inr None, snd run)) by (vm_compute; reflexivity).
  split; [exact Hrun|].
  apply (testFramework_auto_failure_forgets [hono] all_available env_unreachable "hono"%string
           AUndefined AUndefined AUndefined hono init (snd run));
    [reflexivity|reflexivity|reflexivity|vm_compute; discriminate|exact Hrun].
Defined.

(** X6. In auto mode a record returned by [testFramework] is labelled with
    the configuration's display name, its cold start is the value the
    startup promise of the successful attempt resolved with, and the handle
    of that attempt's server stays registered under the framework's name
    with [killed = false]. *)
Theorem testFramework_auto_success configs available env fname testDuration maxRetries manualStart cfg m st st' :
  find (fun c => String.eqb (name c) fname) configs = Some cfg ->
  arg_truthy manualStart false = false ->
  testFramework configs available env fname testDuration maxRetries manualStart st = (inr (Some m), st') ->
  framework m = displayName cfg /\
  exists k,
    Startup.startFrameworkServer (env_hc (env (name cfg) k)) (env_exit (env (name cfg) k)) =
      Fulfilled (coldStartTime m) /\
    map_get (name cfg) (serverProcesses st') = Some (mkChild (env_pid (env (name cfg) k)) false).
Proof.
  intros Hf Hm. unfold testFramework. rewrite Hf.
  destruct (negb (available cfg)); [discriminate|]. rewrite Hm. intro H.
  apply retry_loop_ok_st in H as (k & st1 & H).
  destruct (attempt_body_auto_metrics _ _ _ _ _ H) as [H1 H2].
  pose proof (attempt_body_auto_ok _ _ _ _ _ H) as H3.
  split; [exact H1|]. exists k. auto.
Qed.

Lemma testFramework_auto_success_witness :
  let run := testFramework [hono] all_available (env_healthy one_outlier) "hono"%string
               AUndefined AUndefined AUndefined init in
  let m := match fst run with
           | inr (Some m) => m
           | _ => mkMetrics "none" 0 0 JNaN JNaN JNaN JNaN JNaN 0 0
           end in
  find (fun c => String.eqb (name c) "hono"%string) [hono] = Some hono /\
  arg_truthy AUndefined false = false /\
  run = (inr (Some m), snd run) /\
  framework m = displayName hono /\
  exists k,
    Startup.startFrameworkServer (env_hc (env_healthy one_outlier (name hono) k))
      (env_exit (env_healthy one_outlier (name hono) k)) = Fulfilled (coldStartTime m) /\
    map_get (name hono) (serverProcesses (snd run)) =
      Some (mkChild (env_pid (env_healthy one_outlier (name hono) k)) false).
Proof.
  intros run m. split; [reflexivity|]. split; [reflexivity|].
  assert (Hrun : run = (inr (Some m), snd run)) by (vm_compute; reflexivity).
  split; [exact Hrun|].
  exact (testFramework_auto_success [hono] all_available (env_healthy one_outlier) "hono"%string
           AUndefined AUndefined AUndefined hono m init (snd run) eq_refl eq_refl Hrun).
Defined.



(** X8. [cleanupFramework] on a registered live server that was not killed
    sends SIGTERM, then SIGKILL after 2 s if the process is still there: the
    process is gone afterwards, but the entry stays in the process map,
    marked killed (the function returns before its [delete]). *)
Theorem cleanupFramework_live_keeps_entry nm p st :
  map_get nm (serverProcesses st) = Some p ->
  killed p = false ->
  is_alive (pid p) (os st) = true ->
  exists st', cleanupFramework nm st = (inr tt, st') /\
    is_alive (pid p) (os st') = false /\
    map_get nm (serverProcesses st') = Some (mkChild (pid p) true).
Proof. apply cleanup_live. Qed.

Lemma cleanupFramework_live_keeps_entry_witness :
  map_get "hono"%string (serverProcesses running_hono) = Some (mkChild 42 false) /\
  killed (mkChild 42 false) = false /\
  is_alive (pid (mkChild 42 false)) (os running_hono) = true /\
  exists st', cleanupFramework "hono"%string running_hono = (inr tt, st') /\
    is_alive (pid (mkChild 42 false)) (os st') = false /\
    map_get "hono"%string (serverProcesses st') = Some (mkChild (pid (mkChild 42 false)) true).
Proof.
  split; [reflexivity|]. split; [reflexivity|]. split; [reflexivity|].
  apply cleanupFramework_live_keeps_entry; reflexivity.
Defined.

(** X10. [testAllFrameworks] with its default [manualStart = false] resolves
    with an empty array, whatever the frameworks and servers: the flag lands
    in [maxRetries] of [testFramework], which then makes no attempt. *)
Theorem testAllFrameworks_default_empty configs available env testDuration st :
  exists st', testAllFrameworks configs available env testDuration false st = (inr [], st').
Proof. apply testAll_loop_auto. Qed.

(** X11. [runFullTest] always resolves with an empty array, and afterwards
    the process map is empty. *)
Theorem runFullTest_empty_and_clean configs available env testDuration st :
  exists st', runFullTest configs available env testDuration st = (inr [], st') /\
    serverProcesses st' = [].
Proof.
  destruct (runFullTest_empty configs available env testDuration st) as (st' & E & H & _).
  exists st'. split; [exact E|exact H].
Qed.

(** X13. In [stopAllServers], a registered live server that was not killed
    receives SIGTERM only: its handle becomes killed, so the SIGKILL
    fallback is skipped and a process that ignores SIGTERM keeps running. *)
Theorem stop_one_sigterm_only nm p st :
  map_get nm (serverProcesses st) = Some p ->
  killed p = false ->
  is_alive (pid p) (os st) = true ->
  stop_one (nm, p) st =
  (inr tt, mkState (map_set nm (mkChild (pid p) true) (serverProcesses st))
                   (filter (fun q => negb ((os_pid q =? pid p)%nat && exits_on_term q)) (os st))
                   (log st ++ [Kill (pid p) SIGTERM])).
Proof. apply stop_one_live. Qed.

Lemma stop_one_sigterm_only_witness :
  map_get "hono"%string (serverProcesses running_hono) = Some (mkChild 42 false) /\
  killed (mkChild 42 false) = false /\
  is_alive (pid (mkChild 42 false)) (os running_hono) = true /\
  stop_one ("hono"%string, mkChild 42 false) running_hono =
  (inr tt, mkState (map_set "hono"%string (mkChild 42 true) (serverProcesses running_hono))
                   (filter (fun q => negb ((os_pid q =? 42)%nat && exits_on_term q)) (os running_hono))
                   (log running_hono ++ [Kill 42 SIGTERM])) /\
  is_alive 42 (filter (fun q => negb ((os_pid q =? 42)%nat && exits_on_term q)) (os running_hono)) = true.
Proof.
  split; [reflexivity|]. split; [reflexivity|]. split; [reflexivity|].
  split; [|reflexivity].
  apply (stop_one_sigterm_only "hono"%string (mkChild 42 false) running_hono); reflexivity.
Defined.

(** X14. The record of [runPerformanceTest] counts requests over all the
    batches: its [totalRequests] is the number of successful requests, and
    its [errorRate] is the failed requests over all requests, times 100. *)
Theorem runPerformanceTest_counts bs r :
  runPerformanceTest bs = Returned r ->
  r_totalRequests r = length (filter success (concat bs)) /\
  errorRate r = error_rate (length (concat bs))
                           (length (filter (fun x => negb (success x)) (concat bs))).
Proof.
  unfold runPerformanceTest. intro H.
  destruct (summarize_returned _ _ (fold_batches_inv bs) H) as (_ & H1 & _ & _ & _ & _ & H2).
  rewrite H1, H2, fold_batches_concat.
  destruct (fold_records (concat bs) init_counters) as (A & B & C & _).
  rewrite A, B, C. split; reflexivity.
Qed.

Lemma runPerformanceTest_counts_witness :
  let r := match runPerformanceTest (one_outlier ++ [[failed_1ms]]) with
           | Returned r => r
           | NoSuccessfulRequests => mkPerfResult 0 JNaN JNaN JNaN JNaN 0
           end in
  runPerformanceTest (one_outlier ++ [[failed_1ms]]) = Returned r /\
  r_totalRequests r = length (filter success (concat (one_outlier ++ [[failed_1ms]]))) /\
  errorRate r = error_rate (length (concat (one_outlier ++ [[failed_1ms]])))
                  (length (filter (fun x => negb (success x)) (concat (one_outlier ++ [[failed_1ms]])))).
Proof.
  intro r. assert (H : runPerformanceTest (one_outlier ++ [[failed_1ms]]) = Returned r)
    by (vm_compute; reflexivity).
  split; [exact H|]. apply runPerformanceTest_counts, H.
Defined.

(** X15. The statistics of [runPerformanceTest] depend only on the multiset
    of request results: any other interleaving of the concurrent workers'
    batches yields the same outcome. *)
Theorem runPerformanceTest_interleaving bs1 bs2 :
  Permutation (concat bs1) (concat bs2) ->
  runPerformanceTest bs1 = runPerformanceTest bs2.
Proof. apply runPerformanceTest_perm. Qed.

Lemma runPerformanceTest_interleaving_witness :
  Permutation (concat one_outlier) (concat [[ok_1000ms]; repeat ok_1ms 20]) /\
  runPerformanceTest one_outlier = runPerformanceTest [[ok_1000ms]; repeat ok_1ms 20].
Proof.
  assert (Hp : Permutation (concat one_outlier) (concat [[ok_1000ms]; repeat ok_1ms 20])).
  { simpl. apply Permutation_sym, (Permutation_cons_append (repeat ok_1ms 20) ok_1000ms). }
  split; [exact Hp|]. apply runPerformanceTest_interleaving, Hp.
Defined.

(** X16. When the socket events arrive no earlier than the start time, the
    latency recorded by [sendRequest] or [sendHealthCheck] is never
    negative, on success, error and timeout alike. *)
Theorem send_latency_nonneg k endpoint port startTime evs r :
  forallb (fun e => Qcleb startTime (fst e)) evs = true ->
  send k endpoint port startTime evs = Fulfilled r ->
  0 <= latency r.
Proof.
  intros Hf H. rewrite send_settle in H. apply (settle_nonneg _ _ _ _ _ _ (Qcle_refl _)) in H;
    [exact H|].
  apply Forall_forall. intros e He. apply Qcleb_iff.
  rewrite forallb_forall in Hf. apply Hf, He.
Qed.

Lemma send_latency_nonneg_witness :
  let evs := [(Q2Qc 3, EvResponse 200); (Q2Qc 4, EvData); (Q2Qc 6, EvEnd)] in
  let r := match send LoadTestRequest techempower_json 3001%Z 0 evs with
           | Fulfilled r => r
           | _ => failed_1ms
           end in
  forallb (fun e => Qcleb 0 (fst e)) evs = true /\
  send LoadTestRequest techempower_json 3001%Z 0 evs = Fulfilled r /\
  0 <= latency r.
Proof.
  intros evs r.
  assert (H : send LoadTestRequest techempower_json 3001%Z 0 evs = Fulfilled r)
    by (vm_compute; reflexivity).
  split; [reflexivity|]. split; [exact H|].
  apply (send_latency_nonneg LoadTestRequest techempower_json 3001%Z 0 evs r); [reflexivity|exact H].
Defined.

(** X17. [runBatchTest] returns the tested frameworks' records reordered by
    ascending [averageLatency]: the last two in-place sorts of
    [saveSummaryResults] decide the order, the cold-start sort changing
    nothing since every cold start is 0. The summary's [results] keep the
    testing order and [totalFrameworks] counts them. *)
Theorem runBatchTest_latency_order configs env :
  let results := batch_loop env configs in
  Permutation results (fst (runBatchTest configs env)) /\
  Sorted lat_le (fst (runBatchTest configs env)) /\
  match snd (runBatchTest configs env) with
  | None => results = []
  | Some s => summaryResults s = results /\ totalFrameworks s = length results
  end.
Proof.
  intro results. pose proof (batch_loop_some env configs) as Hall. fold results in Hall.
  unfold runBatchTest. fold results.
  destruct results as [|m ms] eqn:Er; [repeat constructor|].
  rewrite <- Er in *. unfold saveSummaryResults. cbn [fst snd].
  set (r1 := js_sort by_rps results). set (r2 := js_sort by_latency r1).
  assert (P1 : Permutation results r1) by apply js_sort_perm.
  assert (P2 : Permutation r1 r2) by apply js_sort_perm.
  assert (H2 : Forall (fun m => coldStartTime m = 0 /\ exists q, m_averageLatency m = JNum q) r2)
    by (apply (Permutation_Forall (Permutation_trans P1 P2)), Hall).
  rewrite (js_sort_id by_coldStart r2).
  - split; [exact (Permutation_trans P1 P2)|]. split; [|split; reflexivity].
    apply (js_sort_sorted by_latency (fun m => exists q, m_averageLatency m = JNum q)).
    + intros x y Hx Hy. apply by_latency_total; assumption.
    + apply (Permutation_Forall P1). eapply Forall_impl; [|exact Hall]. intros a [_ Ha]. exact Ha.
  - intros x y Hx Hy. rewrite Forall_forall in H2.
    destruct (H2 x Hx) as [Ex _], (H2 y Hy) as [Ey _].
    unfold by_coldStart. rewrite Ex, Ey. reflexivity.
Qed.

End Extras.
